(** * Tests Hub service worker (sw.js): shallow embedding and properties

    The worker is an event-driven process over the platform's Cache
    Storage.  Its handlers are embedded as programs of a state-and-exception
    monad over a [World] holding the cache namespaces, the log of network
    requests, the background tasks started without [await], the
    notifications shown and the messages posted.  What the platform
    supplies (the network, the storage estimate, the clock, [Date] parsing,
    the origin) is gathered in a [Platform] record each program reads. *)

From Stdlib Require Import String Ascii List ZArith QArith Bool Lia.
From Stdlib Require Import DecimalString.
Import ListNotations.
Local Open Scope string_scope.
Local Open Scope list_scope.
Local Open Scope Z_scope.

(** ** Strings as the code uses them *)

Definition dq : string := String "034"%char EmptyString.
Definition nl : string := String "010"%char EmptyString.
Definition tab : string := String "009"%char EmptyString.

(** [s.startsWith(p)] *)
Fixpoint startsWith (s p : string) : bool :=
  match p with
  | EmptyString => true
  | String a p' =>
      match s with
      | EmptyString => false
      | String b s' => if Ascii.eqb a b then startsWith s' p' else false
      end
  end.

(** [s.includes(p)] *)
Fixpoint includes (s p : string) : bool :=
  startsWith s p ||
  match s with
  | EmptyString => false
  | String _ s' => includes s' p
  end.

(** ASCII lower-casing: header names are kept lower-case by [Headers]. *)
Definition lower_ascii (c : ascii) : ascii :=
  let n := nat_of_ascii c in
  if ((65 <=? n) && (n <=? 90))%nat then ascii_of_nat (n + 32) else c.

Fixpoint toLowerCase (s : string) : string :=
  match s with
  | EmptyString => EmptyString
  | String c s' => String (lower_ascii c) (toLowerCase s')
  end.

Fixpoint bytes (l : list nat) : string :=
  match l with
  | [] => EmptyString
  | n :: l' => String (ascii_of_nat n) (bytes l')
  end.

Fixpoint repeat_string (n : nat) (s : string) : string :=
  match n with
  | O => EmptyString
  | S n' => (s ++ repeat_string n' s)%string
  end.

(** Lines of a template literal, joined by line feeds. *)
Fixpoint unlines (l : list string) : string :=
  match l with
  | [] => EmptyString
  | [x] => x
  | x :: l' => (x ++ nl ++ unlines l')%string
  end.

(** ** Constants of the worker *)

Definition CACHE_NAME : string := "tests-hub-v2.1.7".
Definition STATIC_CACHE_NAME : string := "tests-hub-static-v2.1.7".
Definition DYNAMIC_CACHE_NAME : string := "tests-hub-dynamic-v2.1.7".

(** The version announced by the header comment of sw.js ([Version: v2.1.7])
    and embedded in the three namespace names. *)
Definition VERSION_TAG : string := "2.1.7".

Definition STATIC_ASSETS : list string :=
  [ "/";
    "/index.html";
    "/Tests_7th.html";
    "/Tests_8th.html";
    "/Tests_9th.html";
    "/Tests_1st_secondary.html";
    "/Tests_2nd_secondary.html";
    "/Tests_3rd_secondary.html";
    "/Tests_4th_secondary.html";
    "/manifest.json";
    "/sw.js" ].

Definition MAX_AGE_DAYS : Z := 7.
Definition MAX_AGE_MS : Z := MAX_AGE_DAYS * 24 * 60 * 60 * 1000.

Definition SYNC_QUEUE_NAME : string := "sync-queue".
Definition NOTIFICATION_ICON : string := "/assets/icons/icon-96x96.png".

(** ** Requests, responses, headers *)

(** A [Headers] object: names are stored lower-case, [get] lower-cases the
    name it is asked for; [None] is the [null] of an absent header. *)
Definition Headers := list (string * string).

Fixpoint Headers_get (name : string) (h : Headers) : option string :=
  match h with
  | [] => None
  | (n, v) :: h' =>
      if String.eqb n (toLowerCase name) then Some v else Headers_get name h'
  end.

Definition Headers_of (init : list (string * string)) : Headers :=
  map (fun nv => (toLowerCase (fst nv), snd nv)) init.

Record Request := mkRequest {
  method : string;
  url : string;               (* absolute URL *)
  req_headers : Headers
}.

Record Response := mkResponse {
  status : Z;
  statusText : string;
  headers : Headers;
  body : string
}.

(** [response.ok] *)
Definition ok (r : Response) : bool := (200 <=? status r) && (status r <=? 299).

(** [new Response(body, {status, statusText, headers})]; the status defaults
    to 200 and the status text to the empty string. *)
Definition new_Response (b : string) (st : option Z) (stt : option string)
    (h : list (string * string)) : Response :=
  {| status := match st with Some s => s | None => 200 end;
     statusText := match stt with Some s => s | None => EmptyString end;
     headers := Headers_of h;
     body := b |}.

(** [request.headers.get('Accept')?.includes('text/html')] *)
Definition accepts_html (request : Request) : bool :=
  match Headers_get "Accept" (req_headers request) with
  | Some v => includes v "text/html"
  | None => false
  end.

(** ** JavaScript values (push payloads, notification options, messages) *)

#[warnings="-register-all"]
Inductive JSValue : Type :=
| JUndefined
| JNull
| JBool (b : bool)
| JNum (q : Q)
| JStr (s : string)
| JArr (l : list JSValue)
| JObj (props : list (string * JSValue)).

Definition JSObject := list (string * JSValue).

Fixpoint get_prop (key : string) (o : JSObject) : JSValue :=
  match o with
  | [] => JUndefined
  | (k, v) :: o' => if String.eqb k key then v else get_prop key o'
  end.

(** Assignment [o.key = v]: replaces the value of an existing property in
    place, appends a new property otherwise. *)
Fixpoint set_prop (key : string) (v : JSValue) (o : JSObject) : JSObject :=
  match o with
  | [] => [(key, v)]
  | (k, w) :: o' =>
      if String.eqb k key then (k, v) :: o' else (k, w) :: set_prop key v o'
  end.

Definition index_key (i : nat) : string :=
  NilEmpty.string_of_uint (Nat.to_uint i).

Fixpoint indexed {A} (f : A -> JSValue) (i : nat) (l : list A) : JSObject :=
  match l with
  | [] => []
  | x :: l' => (index_key i, f x) :: indexed f (S i) l'
  end.

(** The own enumerable properties a spread [...v] copies. *)
Definition own_props (v : JSValue) : JSObject :=
  match v with
  | JObj props => props
  | JArr l => indexed (fun x => x) 0 l
  | JStr s => indexed (fun c => JStr (String c EmptyString)) 0 (list_ascii_of_string s)
  | _ => []
  end.

(** [{...o, ...v}] *)
Definition spread (o : JSObject) (v : JSValue) : JSObject :=
  fold_left (fun acc kv => set_prop (fst kv) (snd kv) acc) (own_props v) o.

(** [v.key] on a value already known to be neither [null] nor [undefined]. *)
Definition member (v : JSValue) (key : string) : JSValue :=
  match v with
  | JObj props => get_prop key props
  | _ => JUndefined
  end.

Definition truthy (v : JSValue) : bool :=
  match v with
  | JUndefined | JNull => false
  | JBool b => b
  | JNum q => negb (Qeq_bool q 0)
  | JStr s => negb (String.eqb s EmptyString)
  | JArr _ | JObj _ => true
  end.

(** [v === 'literal'] *)
Definition strict_eq_str (v : JSValue) (s : string) : bool :=
  match v with
  | JStr t => String.eqb t s
  | _ => false
  end.

(** ** The cache store

    A namespace keeps its entries in insertion order, keyed by the absolute
    URL of a GET request (the fetch listener leaves every other method to
    the browser before a strategy runs).  [put] drops the entry stored under
    the key and appends the new one; [delete] drops the entry stored under
    the key; [keys] enumerates in insertion order.  The store is the plain
    key-value interface the worker relies on: [Vary] matching and the
    platform's own refusals of a write (partial content, storage exhausted)
    are outside the model. *)

Definition Cache := list (string * Response).
Definition CacheStorage := list (string * Cache).

Fixpoint Cache_match (key : string) (c : Cache) : option Response :=
  match c with
  | [] => None
  | (k, r) :: c' => if String.eqb k key then Some r else Cache_match key c'
  end.

Definition Cache_delete (key : string) (c : Cache) : Cache :=
  filter (fun e => negb (String.eqb (fst e) key)) c.

Definition Cache_put (key : string) (r : Response) (c : Cache) : Cache :=
  Cache_delete key c ++ [(key, r)].

Definition Cache_keys (c : Cache) : list string := map fst c.

Fixpoint find_cache (name : string) (cs : CacheStorage) : option Cache :=
  match cs with
  | [] => None
  | (n, c) :: cs' => if String.eqb n name then Some c else find_cache name cs'
  end.

(** The entries of namespace [name]; a namespace that does not exist has
    none. *)
Definition entries (name : string) (cs : CacheStorage) : Cache :=
  match find_cache name cs with
  | Some c => c
  | None => []
  end.

(** [caches.open(name)]: the namespace is created, empty and last, when it
    does not exist. *)
Definition storage_open (name : string) (cs : CacheStorage) : CacheStorage :=
  match find_cache name cs with
  | Some _ => cs
  | None => cs ++ [(name, [])]
  end.

Fixpoint storage_update (name : string) (f : Cache -> Cache) (cs : CacheStorage)
    : CacheStorage :=
  match cs with
  | [] => []
  | (n, c) :: cs' =>
      if String.eqb n name then (n, f c) :: cs'
      else (n, c) :: storage_update name f cs'
  end.

(** [caches.delete(name)] *)
Definition storage_delete (name : string) (cs : CacheStorage) : CacheStorage :=
  filter (fun nc => negb (String.eqb (fst nc) name)) cs.

(** [caches.keys()] *)
Definition storage_keys (cs : CacheStorage) : list string := map fst cs.

(** [caches.match(request)]: the namespaces are searched in creation order
    and the first hit is returned. *)
Fixpoint storage_match (key : string) (cs : CacheStorage) : option Response :=
  match cs with
  | [] => None
  | (_, c) :: cs' =>
      match Cache_match key c with
      | Some r => Some r
      | None => storage_match key cs'
      end
  end.

(** ** What the platform supplies *)

(** [navigator.storage.estimate()] *)
Record StorageEstimate := mkEstimate {
  usage : Z;
  quota : Z
}.

Inductive Error : Type :=
| NetworkError            (* a rejected [fetch] *)
| TypeError (msg : string).

Record Platform := mkPlatform {
  origin : string;                          (* [self.location.origin] *)
  network : Request -> option Response;     (* [None]: the fetch rejects *)
  storage_estimate : option StorageEstimate;
                                            (* [None]: no [navigator.storage.estimate] *)
  now : Z;                                  (* [Date.now()], milliseconds *)
  Date_parse : string -> option Z           (* [None]: Invalid Date *)
}.

(** [new Request(path)] as the cache and [fetch] build it from a string: a
    GET request for the path resolved against the origin. *)
Definition Request_of (P : Platform) (path : string) : Request :=
  {| method := "GET"; url := (origin P ++ path)%string; req_headers := [] |}.

(** [new Date(x)] for [x = headers.get('date')]: [null] converts to the
    number 0, the epoch; a string is parsed.  The result is the time value,
    [None] standing for NaN. *)
Definition new_Date (P : Platform) (x : option string) : option Z :=
  match x with
  | None => Some 0
  | Some s => Date_parse P s
  end.

(** [now - date > limit] on time values: a comparison with NaN is false. *)
Definition age_exceeds (now_ms : Z) (date : option Z) (limit : Z) : bool :=
  match date with
  | Some d => limit <? now_ms - d
  | None => false
  end.

(** [estimate.usage / estimate.quota > 0.9], on the exact quotient of the
    two byte counts: above nine tenths, a zero quota with a positive usage
    giving Infinity (true) and 0/0 giving NaN (false). *)
Definition over_quota (e : StorageEstimate) : bool :=
  9 * quota e <? 10 * usage e.

(** ** The worker's world and its monad *)

Record Notification := mkNotification {
  n_title : JSValue;
  n_options : JSObject
}.

Record World := mkWorld {
  caches : CacheStorage;
  fetched : list Request;        (* requests whose network result was consumed *)
  pending : list Request;        (* [fetchAndCache] calls started without await *)
  shown : list Notification;     (* [showNotification] calls *)
  posted : list (nat * JSObject);(* [port.postMessage] calls, by port *)
  skipWaiting_calls : nat;
  clients_claimed : bool
}.

Definition with_caches (w : World) (cs : CacheStorage) : World :=
  {| caches := cs; fetched := fetched w; pending := pending w; shown := shown w;
     posted := posted w; skipWaiting_calls := skipWaiting_calls w;
     clients_claimed := clients_claimed w |}.

Definition empty_world : World :=
  {| caches := []; fetched := []; pending := []; shown := []; posted := [];
     skipWaiting_calls := 0; clients_claimed := false |}.

Inductive Outcome (A : Type) : Type :=
| Returned (a : A)
| Thrown (e : Error).
Arguments Returned {A} a.
Arguments Thrown {A} e.

(** A program: effects made before an exception stay in the world. *)
Definition SW (A : Type) : Type := World -> Outcome A * World.

Definition ret {A} (a : A) : SW A := fun w => (Returned a, w).

Definition bind {A B} (m : SW A) (k : A -> SW B) : SW B :=
  fun w =>
    match m w with
    | (Returned a, w') => k a w'
    | (Thrown e, w') => (Thrown e, w')
    end.

Definition throw {A} (e : Error) : SW A := fun w => (Thrown e, w).

(** [try { m } catch (error) { h error }] *)
Definition try_catch {A} (m : SW A) (h : Error -> SW A) : SW A :=
  fun w =>
    match m w with
    | (Returned a, w') => (Returned a, w')
    | (Thrown e, w') => h e w'
    end.

Declare Scope sw_scope.
Delimit Scope sw_scope with sw.
Notation "x <- m ;; k" := (bind m (fun x => k))
  (at level 61, m at next level, right associativity) : sw_scope.
Notation "m ;; k" := (bind m (fun _ => k))
  (at level 61, right associativity) : sw_scope.
Local Open Scope sw_scope.

(** [for (const x of l) { f x }] *)
Fixpoint for_of {A} (l : list A) (f : A -> SW unit) : SW unit :=
  match l with
  | [] => ret tt
  | x :: l' => f x ;; for_of l' f
  end.

Fixpoint map_await {A B} (f : A -> SW B) (l : list A) : SW (list B) :=
  match l with
  | [] => ret []
  | x :: l' => y <- f x ;; ys <- map_await f l' ;; ret (y :: ys)
  end.

Definition exec {A} (m : SW A) (w : World) : World := snd (m w).
Definition result {A} (m : SW A) (w : World) : Outcome A := fst (m w).

(** *** Primitives *)

(** [await fetch(request)] *)
Definition fetch (P : Platform) (request : Request) : SW Response :=
  fun w =>
    let w' := {| caches := caches w; fetched := fetched w ++ [request];
                 pending := pending w; shown := shown w; posted := posted w;
                 skipWaiting_calls := skipWaiting_calls w;
                 clients_claimed := clients_claimed w |} in
    match network P request with
    | Some r => (Returned r, w')
    | None => (Thrown NetworkError, w')
    end.

Definition modify_caches (f : CacheStorage -> CacheStorage) : SW unit :=
  fun w => (Returned tt, with_caches w (f (caches w))).

(** [await caches.open(name)]; the handle is the name. *)
Definition caches_open (name : string) : SW string :=
  modify_caches (storage_open name) ;; ret name.

Definition caches_keys : SW (list string) :=
  fun w => (Returned (storage_keys (caches w)), w).

Definition caches_delete (name : string) : SW unit :=
  modify_caches (storage_delete name).

Definition caches_match (request : Request) : SW (option Response) :=
  fun w => (Returned (storage_match (url request) (caches w)), w).

Definition cache_keys (cache : string) : SW (list string) :=
  fun w => (Returned (Cache_keys (entries cache (caches w))), w).

Definition cache_match (cache : string) (key : string) : SW (option Response) :=
  fun w => (Returned (Cache_match key (entries cache (caches w))), w).

Definition cache_delete (cache : string) (key : string) : SW unit :=
  modify_caches (storage_update cache (Cache_delete key)).

Definition cache_put (cache : string) (request : Request) (response : Response)
    : SW unit :=
  modify_caches (storage_update cache (Cache_put (url request) response)).

(** [cache.addAll(paths)]: every path is fetched; a rejected fetch or a
    response that is not [ok] rejects the whole call before anything is
    written; otherwise the responses are stored in the order of the list. *)
Definition fetch_ok (P : Platform) (request : Request) : SW Response :=
  r <- fetch P request ;;
  if ok r then ret r else throw (TypeError "Request failed").

Definition cache_addAll (P : Platform) (cache : string) (paths : list string)
    : SW unit :=
  responses <- map_await (fetch_ok P) (map (Request_of P) paths) ;;
  for_of (combine paths responses)
    (fun pr => cache_put cache (Request_of P (fst pr)) (snd pr)).

(** A call of an async function that is not awaited: the task is recorded
    and the caller goes on. *)
Definition start_background (request : Request) : SW unit :=
  fun w =>
    (Returned tt,
     {| caches := caches w; fetched := fetched w;
        pending := pending w ++ [request]; shown := shown w; posted := posted w;
        skipWaiting_calls := skipWaiting_calls w;
        clients_claimed := clients_claimed w |}).

Definition showNotification (title : JSValue) (options : JSObject) : SW unit :=
  fun w =>
    (Returned tt,
     {| caches := caches w; fetched := fetched w; pending := pending w;
        shown := shown w ++ [mkNotification title options]; posted := posted w;
        skipWaiting_calls := skipWaiting_calls w;
        clients_claimed := clients_claimed w |}).

Definition skipWaiting : SW unit :=
  fun w =>
    (Returned tt,
     {| caches := caches w; fetched := fetched w; pending := pending w;
        shown := shown w; posted := posted w;
        skipWaiting_calls := S (skipWaiting_calls w);
        clients_claimed := clients_claimed w |}).

Definition clients_claim : SW unit :=
  fun w =>
    (Returned tt,
     {| caches := caches w; fetched := fetched w; pending := pending w;
        shown := shown w; posted := posted w;
        skipWaiting_calls := skipWaiting_calls w;
        clients_claimed := true |}).

(** [event.ports[0].postMessage(message)]: without a port the access throws. *)
Definition post_to_first_port (ports : list nat) (message : JSObject) : SW unit :=
  match ports with
  | [] => throw (TypeError "Cannot read properties of undefined")
  | p :: _ =>
      fun w =>
        (Returned tt,
         {| caches := caches w; fetched := fetched w; pending := pending w;
            shown := shown w; posted := posted w ++ [(p, message)];
            skipWaiting_calls := skipWaiting_calls w;
            clients_claimed := clients_claimed w |})
  end.

(** ** The worker (sw.js) *)

(** *** Cache writes *)

(** [cacheResponse(request, response)] *)
Definition cacheResponse (P : Platform) (request : Request) (response : Response)
    : SW unit :=
  cache <- caches_open DYNAMIC_CACHE_NAME ;;
  match storage_estimate P with
  | Some estimate =>
      if over_quota estimate then
        keys <- cache_keys cache ;;
        match keys with
        | oldestKey :: _ => cache_delete cache oldestKey
        | [] => ret tt
        end
      else ret tt
  | None => ret tt
  end ;;
  cache_put cache request response.

(** [fetchAndCache(request)] *)
Definition fetchAndCache (P : Platform) (request : Request) : SW Response :=
  response <- fetch P request ;;
  (if status response =? 200 then cacheResponse P request response else ret tt) ;;
  ret response.

(** *** Offline response *)

Definition tabs (n : nat) : string := repeat_string n tab.
Definition spaces (n : nat) : string := repeat_string n " ".

Definition offline_html : string :=
  (unlines
  [ EmptyString;
    tabs 3 ++ "<!DOCTYPE html>";
    tabs 3 ++ "<html>";
    tabs 3 ++ "<head>";
    tabs 3 ++ "<title>Tests Hub - Offline</title>";
    tabs 3 ++ "<style>";
    spaces 12 ++ "body { font-family: Arial, sans-serif; padding: 20px; text-align: center; }";
    spaces 12 ++ ".container { max-width: 500px; margin: 100px auto; }";
    spaces 12 ++ "h1 { color: #e74c3c; }";
    spaces 12 ++ "button { padding: 10px 20px; background: #3498db; color: white; border: none; border-radius: 5px; cursor: pointer; }";
    tabs 3 ++ "</style>";
    tabs 3 ++ "</head>";
    tabs 3 ++ "<body>";
    tabs 3 ++ "<div class=" ++ dq ++ "container" ++ dq ++ ">";
    spaces 12 ++ "<h1>" ++ bytes [195; 176; 197; 184; 226; 128; 156; 194; 182]%nat ++ " You're Offline</h1>";
    spaces 12 ++ "<p>Tests Hub is currently unavailable offline. Please check your internet connection.</p>";
    spaces 12 ++ "<p>Cached content is available for previously visited pages.</p>";
    spaces 12 ++ "<button onclick=" ++ dq ++ "location.reload()" ++ dq ++ ">Retry</button>";
    tabs 3 ++ "</div>";
    tabs 3 ++ "</body>";
    tabs 3 ++ "</html>";
    tabs 3 ])%string.

(** [offlineResponse(request)] *)
Definition offlineResponse (request : Request) : Response :=
  if accepts_html request then
    new_Response offline_html None None [("Content-Type", "text/html")]
  else
    new_Response "Offline" (Some 503) (Some "Service Unavailable")
      [("Content-Type", "text/plain")].

(** *** Strategies

    A strategy resolves to a response or to [undefined] ([None]), which is
    what [caches.match] resolves to when nothing is stored. *)

(** [cacheFirstStrategy(request)] *)
Definition cacheFirstStrategy (P : Platform) (request : Request)
    : SW (option Response) :=
  try_catch
    (cachedResponse <- caches_match request ;;
     match cachedResponse with
     | Some cachedResponse =>
         let cacheDate := new_Date P (Headers_get "date" (headers cachedResponse)) in
         (if age_exceeds (now P) cacheDate MAX_AGE_MS
          then start_background request      (* fetchAndCache(request), not awaited *)
          else ret tt) ;;
         ret (Some cachedResponse)
     | None =>
         response <- fetchAndCache P request ;;
         ret (Some response)
     end)
    (fun error =>
       if accepts_html request then caches_match (Request_of P "/")
       else ret (Some (new_Response "Network error occurred" (Some 408) None
                         [("Content-Type", "text/plain")]))).

(** [networkFirstStrategy(request)] *)
Definition networkFirstStrategy (P : Platform) (request : Request)
    : SW (option Response) :=
  try_catch
    (networkResponse <- fetch P request ;;
     cacheResponse P request networkResponse ;;
     ret (Some networkResponse))
    (fun error =>
       cachedResponse <- caches_match request ;;
       match cachedResponse with
       | Some cachedResponse => ret (Some cachedResponse)
       | None =>
           if accepts_html request then caches_match (Request_of P "/")
           else ret (Some (offlineResponse request))
       end).

(** The background tasks started by [start_background] are resumed after
    the handler that started them has returned; a rejection of such a task
    reaches nobody. *)
Definition run_pending (P : Platform) (w : World) : World :=
  fold_left (fun w' request => exec (fetchAndCache P request) w')
    (pending w)
    {| caches := caches w; fetched := fetched w; pending := [];
       shown := shown w; posted := posted w;
       skipWaiting_calls := skipWaiting_calls w;
       clients_claimed := clients_claimed w |}.

(** *** Listeners *)

(** [install]: [Promise.all] of the pre-caching and of [self.skipWaiting()],
    which is called while the array is built. *)
Definition on_install (P : Platform) : SW unit :=
  skipWaiting ;;
  cache <- caches_open STATIC_CACHE_NAME ;;
  cache_addAll P cache STATIC_ASSETS.

Definition is_current (cacheName : string) : bool :=
  String.eqb cacheName CACHE_NAME
  || String.eqb cacheName STATIC_CACHE_NAME
  || String.eqb cacheName DYNAMIC_CACHE_NAME.

(** [activate]: [Promise.all] of the clean-up and of [self.clients.claim()]. *)
Definition on_activate : SW unit :=
  clients_claim ;;
  cacheNames <- caches_keys ;;
  for_of cacheNames (fun cacheName =>
    if negb (String.eqb cacheName CACHE_NAME)
       && negb (String.eqb cacheName STATIC_CACHE_NAME)
       && negb (String.eqb cacheName DYNAMIC_CACHE_NAME)
    then caches_delete cacheName
    else ret tt).

Inductive RequestClass : Type := Bypass | Api | Document | Asset.

(** The tests of the [fetch] listener, in its order. *)
Definition classify (request : Request) : RequestClass :=
  if negb (String.eqb (method request) "GET") then Bypass
  else if startsWith (url request) "chrome-extension://" then Bypass
  else if includes (url request) "/api/" then Api
  else if accepts_html request then Document
  else Asset.

(** [fetch]: [None] when the listener returns without [respondWith]. *)
Definition on_fetch (P : Platform) (request : Request)
    : option (SW (option Response)) :=
  match classify request with
  | Bypass => None
  | Api => Some (networkFirstStrategy P request)
  | Document => Some (networkFirstStrategy P request)
  | Asset => Some (cacheFirstStrategy P request)
  end.

(** [event.data] of a push event: [text()] and the result of [json()],
    [None] when [json()] throws. *)
Record PushMessageData := mkPushData {
  text : string;
  json : option JSValue
}.

Definition default_notificationData (P : Platform) : JSObject :=
  [ ("title", JStr "Tests Hub");
    ("body", JStr "New tests and updates available!");
    ("icon", JStr NOTIFICATION_ICON);
    ("badge", JStr NOTIFICATION_ICON);
    ("tag", JStr "testshub-update");
    ("data", JObj [ ("url", JStr "/"); ("timestamp", JNum (inject_Z (now P))) ]) ].

(** The [notificationData] the [push] listener ends with. *)
Definition push_notificationData (P : Platform) (data : option PushMessageData)
    : JSObject :=
  let notificationData := default_notificationData P in
  match data with
  | Some d =>
      match json d with
      | Some v => spread notificationData v
      | None => set_prop "body" (JStr (text d)) notificationData
      end
  | None => notificationData
  end.

(** [push] *)
Definition on_push (P : Platform) (data : option PushMessageData) : SW unit :=
  let notificationData := push_notificationData P data in
  showNotification (get_prop "title" notificationData) notificationData.

Definition pagesToUpdate : list string :=
  [ "/";
    "/index.html";
    "/Tests_7th.html";
    "/Tests_8th.html";
    "/Tests_9th.html";
    "/Tests_1st_secondary.html";
    "/Tests_2nd_secondary.html";
    "/Tests_3rd_secondary.html";
    "/Tests_4th_secondary.html" ].

(** [updateCachedContent()] *)
Definition updateCachedContent (P : Platform) : SW unit :=
  try_catch
    (for_of pagesToUpdate (fun path =>
       try_catch
         (response <- fetch P (Request_of P path) ;;
          if ok response then
            cache <- caches_open DYNAMIC_CACHE_NAME ;;
            cache_put cache (Request_of P path) response
          else ret tt)
         (fun error => ret tt)) ;;
     showNotification (JStr "Tests Hub Updated")
       [ ("body", JStr "New content has been downloaded in background");
         ("icon", JStr NOTIFICATION_ICON);
         ("tag", JStr "content-update") ])
    (fun error => ret tt).

(** [periodicsync] *)
Definition on_periodicsync (P : Platform) (tag : string) : SW unit :=
  if String.eqb tag "update-content" then updateCachedContent P else ret tt.

(** [processSyncQueue()] *)
Definition processSyncQueue : SW unit :=
  showNotification (JStr "Tests Hub Sync")
    [ ("body", JStr "Your actions have been synchronized");
      ("icon", JStr NOTIFICATION_ICON);
      ("tag", JStr "sync-complete") ].

(** [sync] *)
Definition on_sync (tag : string) : SW unit :=
  if String.eqb tag SYNC_QUEUE_NAME then processSyncQueue else ret tt.

Record MessageEvent := mkMessage {
  msg_data : JSValue;
  ports : list nat
}.

(** [message] *)
Definition on_message (event : MessageEvent) : SW unit :=
  (if truthy (msg_data event)
      && strict_eq_str (member (msg_data event) "type") "SKIP_WAITING"
   then skipWaiting else ret tt) ;;
  (if truthy (msg_data event)
      && strict_eq_str (member (msg_data event) "type") "GET_VERSION"
   then post_to_first_port (ports event)
          [ ("version", JStr "2.0.0"); ("cacheName", JStr CACHE_NAME) ]
   else ret tt).

(** [cleanupOldCacheEntries()] *)
Definition cleanupOldCacheEntries (P : Platform) : SW unit :=
  cache <- caches_open DYNAMIC_CACHE_NAME ;;
  requests <- cache_keys cache ;;
  let now_ms := now P in
  for_of requests (fun request =>
    response <- cache_match cache request ;;
    match response with
    | Some response =>
        match Headers_get "date" (headers response) with
        | Some dateHeader =>
            if negb (String.eqb dateHeader EmptyString) then
              let cachedDate := Date_parse P dateHeader in
              if age_exceeds now_ms cachedDate MAX_AGE_MS
              then cache_delete cache request
              else ret tt
            else ret tt
        | None => ret tt
        end
    | None => ret tt
    end).

(** ** Notions used by the statements *)

(** The last binding of a key in a property list. *)
Definition last_binding (k : string) (props : JSObject) : option JSValue :=
  match find (fun kv => String.eqb (fst kv) k) (rev props) with
  | Some kv => Some (snd kv)
  | None => None
  end.

Definition retry_control : string :=
  ("<button onclick=" ++ dq ++ "location.reload()" ++ dq ++ ">Retry</button>")%string.

Definition log_fetch (w : World) (request : Request) : World :=
  {| caches := caches w; fetched := fetched w ++ [request]; pending := pending w;
     shown := shown w; posted := posted w;
     skipWaiting_calls := skipWaiting_calls w;
     clients_claimed := clients_claimed w |}.

(** The eviction step of [cacheResponse], on the namespaces. *)
Definition evict_oldest (P : Platform) (cs : CacheStorage) : CacheStorage :=
  match storage_estimate P with
  | Some estimate =>
      if over_quota estimate then
        match Cache_keys (entries DYNAMIC_CACHE_NAME cs) with
        | oldestKey :: _ => storage_update DYNAMIC_CACHE_NAME (Cache_delete oldestKey) cs
        | [] => cs
        end
      else cs
  | None => cs
  end.

(** Every stored response is a 2xx response. *)
Definition only_ok_cache (c : Cache) : bool := forallb (fun e => ok (snd e)) c.
Definition only_ok (cs : CacheStorage) : bool :=
  forallb (fun nc => only_ok_cache (snd nc)) cs.

(** [m] keeps [I]: from a world satisfying [I], the world [m] leaves,
    whether it returns or throws, satisfies [I]. *)
Definition preserves {A} (I : World -> Prop) (m : SW A) : Prop :=
  forall w, I w -> I (exec m w).

Definition mem_string (s : string) (l : list string) : bool :=
  existsb (String.eqb s) l.

Definition activate_loop (cacheNames : list string) : SW unit :=
  for_of cacheNames (fun cacheName =>
    if negb (String.eqb cacheName CACHE_NAME)
       && negb (String.eqb cacheName STATIC_CACHE_NAME)
       && negb (String.eqb cacheName DYNAMIC_CACHE_NAME)
    then caches_delete cacheName
    else ret tt).

Definition add_pending (w : World) (request : Request) : World :=
  {| caches := caches w; fetched := fetched w; pending := pending w ++ [request];
     shown := shown w; posted := posted w;
     skipWaiting_calls := skipWaiting_calls w;
     clients_claimed := clients_claimed w |}.

(** The time value of the [date] header of a stored response, [None] when
    the header is absent or does not parse. *)
Definition parsed_date (P : Platform) (r : Response) : option Z :=
  match Headers_get "date" (headers r) with
  | Some v => Date_parse P v
  | None => None
  end.

(** What the fetches of [cache.addAll] yield, as a function of the network
    alone: the responses when every one arrives and is [ok]. *)
Fixpoint fetch_all_ok (P : Platform) (requests : list Request)
    : option (list Response) :=
  match requests with
  | [] => Some []
  | q :: requests' =>
      match network P q with
      | Some r =>
          if ok r then option_map (cons r) (fetch_all_ok P requests') else None
      | None => None
      end
  end.

(** The writes of [cache.addAll], on one namespace. *)
Definition put_all (P : Platform) (prs : list (string * Response)) (c : Cache)
    : Cache :=
  fold_left (fun c' pr => Cache_put (url (Request_of P (fst pr))) (snd pr) c') prs c.

Definition batch_keys (P : Platform) (prs : list (string * Response))
    : list string :=
  map (fun pr => url (Request_of P (fst pr))) prs.

(** ** Sample platforms and values used by the examples *)

Definition sample_origin : string := "https://tests-hub.example".

(** A [Date.parse] that knows the epoch written as an HTTP date. *)
Definition sample_Date_parse (s : string) : option Z :=
  if String.eqb s "Thu, 01 Jan 1970 00:00:00 GMT" then Some 0 else None.

Definition sample_platform (net : Request -> option Response)
    (est : option StorageEstimate) (now_ms : Z) : Platform :=
  {| origin := sample_origin;
     network := net;
     storage_estimate := est;
     now := now_ms;
     Date_parse := sample_Date_parse |}.

Definition offline : Request -> option Response := fun _ => None.

Definition html_request (path : string) : Request :=
  {| method := "GET";
     url := (sample_origin ++ path)%string;
     req_headers := [("accept", "text/html,application/xhtml+xml")] |}.

Definition asset_request (path : string) : Request :=
  {| method := "GET";
     url := (sample_origin ++ path)%string;
     req_headers := [("accept", "*/*")] |}.

Definition page (st : Z) (date : option string) (b : string) : Response :=
  {| status := st;
     statusText := EmptyString;
     headers := match date with
                | Some d => [("content-type", "text/html"); ("date", d)]
                | None => [("content-type", "text/html")]
                end;
     body := b |}.

Definition world_with (cs : CacheStorage) : World := with_caches empty_world cs.

Definition get_version_message (reply_port : nat) (others : list nat) : MessageEvent :=
  {| msg_data := JObj [("type", JStr "GET_VERSION")];
     ports := reply_port :: others |}.

Definition epoch_date : string := "Thu, 01 Jan 1970 00:00:00 GMT".

Definition fresh_world : World :=
  world_with
    [ (STATIC_CACHE_NAME, []);
      (DYNAMIC_CACHE_NAME,
        [ ((sample_origin ++ "/logo.png")%string, page 200 (Some epoch_date) "PNG") ]) ].

Definition shell_page : Response := page 200 (Some epoch_date) "<html>Tests Hub</html>".

Definition shell_only_world : World :=
  world_with [ (STATIC_CACHE_NAME, [ ((sample_origin ++ "/")%string, shell_page) ]) ].

Definition not_found_page : Response := page 404 None "Not Found".

Definition answers_404 : Request -> option Response := fun _ => Some not_found_page.

Definition previous_version_world : World :=
  world_with
    [ ("tests-hub-static-v2.1.6", [ ((sample_origin ++ "/")%string, shell_page) ]);
      ("tests-hub-dynamic-v2.1.6", []) ].

Definition serves_shell : Request -> option Response := fun _ => Some shell_page.

Definition nearly_full : StorageEstimate := {| usage := 95; quota := 100 |}.

Definition two_entries_world : World :=
  world_with
    [ (STATIC_CACHE_NAME, []);
      (DYNAMIC_CACHE_NAME,
        [ ((sample_origin ++ "/a.html")%string, page 200 None "A");
          ((sample_origin ++ "/b.html")%string, page 200 None "B") ]) ].

Definition old_manifest : Response := page 200 (Some epoch_date) "old manifest".
Definition new_manifest : Response := page 200 None "new manifest".

Definition serves_new_manifest : Request -> option Response :=
  fun _ => Some new_manifest.

Definition stale_dynamic_world : World :=
  world_with
    [ (STATIC_CACHE_NAME, []);
      (DYNAMIC_CACHE_NAME, [ ((sample_origin ++ "/manifest.json")%string, old_manifest) ]) ].

(** The install step stores [/manifest.json] in the static namespace, which
    [caches.match] searches before the dynamic one. *)
Definition stale_static_world : World :=
  world_with
    [ (STATIC_CACHE_NAME, [ ((sample_origin ++ "/manifest.json")%string, old_manifest) ]) ].

Definition undated_page : Response := page 200 None "no date".
Definition garbled_page : Response := page 200 (Some "yesterday-ish") "bad date".

Definition undated_world : World :=
  world_with
    [ (DYNAMIC_CACHE_NAME,
        [ ((sample_origin ++ "/undated.png")%string, undated_page);
          ((sample_origin ++ "/garbled.png")%string, garbled_page);
          ((sample_origin ++ "/old.png")%string, page 200 (Some epoch_date) "old") ]) ].

Definition year_2026 : Z := 1793664000000.

Definition lacks_manifest : Request -> option Response :=
  fun request =>
    if String.eqb (url request) (sample_origin ++ "/manifest.json")
    then Some not_found_page
    else Some shell_page.

(** ** Further notions and sample data *)

(** The test that makes [cacheResponse] evict. *)
Definition under_pressure (P : Platform) : bool :=
  match storage_estimate P with
  | Some estimate => over_quota estimate
  | None => false
  end.

(** No namespace other than the dynamic one stores an entry under [key]. *)
Definition unshadowed (key : string) (cs : CacheStorage) : bool :=
  forallb (fun nc =>
             String.eqb (fst nc) DYNAMIC_CACHE_NAME
             || match Cache_match key (snd nc) with
                | Some _ => false
                | None => true
                end) cs.

(** The response [cacheFirstStrategy] builds when the network fails for a
    request that is not a document. *)
Definition network_error_response : Response :=
  new_Response "Network error occurred" (Some 408) None
    [("Content-Type", "text/plain")].

(** The plain-text branch of [offlineResponse]. *)
Definition service_unavailable_response : Response :=
  new_Response "Offline" (Some 503) (Some "Service Unavailable")
    [("Content-Type", "text/plain")].

Definition api_request (path : string) : Request :=
  {| method := "GET";
     url := (sample_origin ++ path)%string;
     req_headers := [("accept", "application/json")] |}.

Definition post_request (path : string) : Request :=
  {| method := "POST";
     url := (sample_origin ++ path)%string;
     req_headers := [("accept", "text/html")] |}.

Definition serves (r : Response) : Request -> option Response := fun _ => Some r.

Definition logo : Response := page 200 (Some epoch_date) "PNG".

(** Every namespace has distinct keys. *)
Definition distinct_keys (cs : CacheStorage) : Prop :=
  Forall (fun nc => NoDup (Cache_keys (snd nc))) cs.

(** Every namespace carries one of the three current names. *)
Definition only_current (cs : CacheStorage) : bool :=
  forallb is_current (storage_keys cs).

Definition mixed_world : World :=
  world_with
    [ (STATIC_CACHE_NAME, [ ((sample_origin ++ "/")%string, shell_page) ]);
      (DYNAMIC_CACHE_NAME,
        [ ((sample_origin ++ "/a.html")%string, page 200 None "A");
          ((sample_origin ++ "/old.png")%string, page 200 (Some epoch_date) "old") ]) ].

(** What [updateCachedContent] stores for a page: the response of its fetch
    when it arrives and is [ok]. *)
Definition refreshed (P : Platform) (path : string) : option Response :=
  match network P (Request_of P path) with
  | Some r => if ok r then Some r else None
  | None => None
  end.

(** One turn of the loop of [updateCachedContent], on the namespaces. *)
Definition refresh_step (P : Platform) (cs : CacheStorage) (path : string)
    : CacheStorage :=
  match refreshed P path with
  | Some r =>
      storage_update DYNAMIC_CACHE_NAME (Cache_put (url (Request_of P path)) r)
        (storage_open DYNAMIC_CACHE_NAME cs)
  | None => cs
  end.

(** The same turn on the entries of the dynamic namespace. *)
Definition refresh_entry (P : Platform) (c : Cache) (path : string) : Cache :=
  match refreshed P path with
  | Some r => Cache_put (url (Request_of P path)) r c
  | None => c
  end.

Definition page_urls (P : Platform) : list string :=
  map (fun path => url (Request_of P path)) pagesToUpdate.

Definition content_updated_notification : Notification :=
  mkNotification (JStr "Tests Hub Updated")
    [ ("body", JStr "New content has been downloaded in background");
      ("icon", JStr NOTIFICATION_ICON);
      ("tag", JStr "content-update") ].

(** The test under which [cleanupOldCacheEntries] deletes an entry. *)
Definition sweep_stale (P : Platform) (r : Response) : bool :=
  match Headers_get "date" (headers r) with
  | Some dateHeader =>
      negb (String.eqb dateHeader EmptyString)
      && age_exceeds (now P) (Date_parse P dateHeader) MAX_AGE_MS
  | None => false
  end.

(** One turn of the loop of [cleanupOldCacheEntries]. *)
Definition sweep_entry (P : Platform) (request : string) : SW unit :=
  response <- cache_match DYNAMIC_CACHE_NAME request ;;
  match response with
  | Some response =>
      match Headers_get "date" (headers response) with
      | Some dateHeader =>
          if negb (String.eqb dateHeader EmptyString) then
            if age_exceeds (now P) (Date_parse P dateHeader) MAX_AGE_MS
            then cache_delete DYNAMIC_CACHE_NAME request
            else ret tt
          else ret tt
      | None => ret tt
      end
  | None => ret tt
  end.

(** The same turn on the entries of the dynamic namespace. *)
Definition sweep_key (P : Platform) (c : Cache) (key : string) : Cache :=
  match Cache_match key c with
  | Some r => if sweep_stale P r then Cache_delete key c else c
  | None => c
  end.

Definition serves_only_index : Request -> option Response :=
  fun request =>
    if String.eqb (url request) (sample_origin ++ "/index.html")
    then Some shell_page
    else None.

(** ** Notification clicks *)

(** An open page as [clients.matchAll] lists it: its URL and whether it has
    a [focus] method. *)
Record WindowClient := mkClient {
  client_url : string;
  can_focus : bool
}.

Inductive ClickAction : Type :=
| FocusClient (client : WindowClient)
| OpenWindow (target : JSValue)
| NoAction.

Record ClickOutcome := mkClickOutcome {
  notification_closed : bool;
  action : ClickAction
}.

(** [event.notification.data?.url || '/'] *)
Definition urlToOpen (data : JSValue) : JSValue :=
  let u := match data with
           | JUndefined | JNull => JUndefined
           | _ => member data "url"
           end in
  if truthy u then u else JStr "/".

(** The loop over [clientList]: the first client whose URL is the target and
    which can be focused. *)
Fixpoint first_focusable (clientList : list WindowClient) (target : JSValue)
    : option WindowClient :=
  match clientList with
  | [] => None
  | client :: rest =>
      if strict_eq_str target (client_url client) && can_focus client
      then Some client
      else first_focusable rest target
  end.

(** [notificationclick]: the notification is closed; then an open page is
    focused or a window is opened, when [clients.openWindow] exists. *)
Definition on_notificationclick (data : JSValue) (clientList : list WindowClient)
    (openWindow_exists : bool) : ClickOutcome :=
  {| notification_closed := true;
     action :=
       match first_focusable clientList (urlToOpen data) with
       | Some client => FocusClient client
       | None =>
           if openWindow_exists then OpenWindow (urlToOpen data) else NoAction
       end |}.

(** Whether the fetch of an asset arrives with a 2xx status. *)
Definition asset_ok (P : Platform) (path : string) : bool :=
  match network P (Request_of P path) with
  | Some r => ok r
  | None => false
  end.

(** The reply of the [message] listener to [GET_VERSION]. *)
Definition version_reply : JSObject :=
  [ ("version", JStr "2.0.0"); ("cacheName", JStr CACHE_NAME) ].

Definition message_type_is (data : JSValue) (kind : string) : bool :=
  truthy data && strict_eq_str (member data "type") kind.

Definition after_skipWaiting (w : World) : World :=
  {| caches := caches w; fetched := fetched w; pending := pending w;
     shown := shown w; posted := posted w;
     skipWaiting_calls := S (skipWaiting_calls w);
     clients_claimed := clients_claimed w |}.

Definition after_post (w : World) (port : nat) (message : JSObject) : World :=
  {| caches := caches w; fetched := fetched w; pending := pending w;
     shown := shown w; posted := posted w ++ [(port, message)];
     skipWaiting_calls := skipWaiting_calls w;
     clients_claimed := clients_claimed w |}.

Definition notification_fields : list string :=
  [ "title"; "body"; "icon"; "badge"; "tag"; "data" ].

Definition is_object (v : JSValue) : bool :=
  match v with
  | JObj _ => true
  | _ => false
  end.

Definition open_pages : list WindowClient :=
  [ mkClient (sample_origin ++ "/index.html") true;
    mkClient (sample_origin ++ "/Tests_7th.html") true;
    mkClient (sample_origin ++ "/Tests_7th.html") true ].

(** ** Basic facts *)

Lemma string_eqb_refl (s : string) : String.eqb s s = true.
Proof. apply String.eqb_refl. Qed.

Lemma filter_all {A} (p : A -> bool) (l : list A) :
  (forall x, In x l -> p x = true) -> filter p l = l.
Proof.
  induction l as [|a l IH]; intros H; simpl; [reflexivity|].
  rewrite (H a (or_introl eq_refl)), IH; [reflexivity|].
  intros x Hx. apply H. now right.
Qed.

Lemma filter_none {A} (p : A -> bool) (l : list A) :
  (forall x, In x l -> p x = false) -> filter p l = [].
Proof.
  induction l as [|a l IH]; intros H; simpl; [reflexivity|].
  rewrite (H a (or_introl eq_refl)). apply IH.
  intros x Hx. apply H. now right.
Qed.

Lemma filter_filter {A} (p q : A -> bool) (l : list A) :
  filter p (filter q l) = filter (fun x => q x && p x) l.
Proof.
  induction l as [|a l IH]; simpl; [reflexivity|].
  destruct (q a); simpl; [destruct (p a)|]; now rewrite IH.
Qed.

(** *** The cache store *)

Lemma Cache_match_delete_other (k k' : string) (c : Cache) :
  k' <> k -> Cache_match k (Cache_delete k' c) = Cache_match k c.
Proof.
  intros Hne. induction c as [|[k0 r0] c IH]; simpl; [reflexivity|].
  destruct (String.eqb k0 k') eqn:E0; simpl.
  - apply String.eqb_eq in E0. subst k0.
    destruct (String.eqb k' k) eqn:E1; [|exact IH].
    apply String.eqb_eq in E1. contradiction.
  - destruct (String.eqb k0 k); [reflexivity|exact IH].
Qed.

Lemma Cache_match_delete_same (k : string) (c : Cache) :
  Cache_match k (Cache_delete k c) = None.
Proof.
  induction c as [|[k0 r0] c IH]; simpl; [reflexivity|].
  destruct (String.eqb k0 k) eqn:E0; simpl; [exact IH|].
  now rewrite E0.
Qed.

Lemma Cache_match_app (k : string) (c1 c2 : Cache) :
  Cache_match k (c1 ++ c2) =
  match Cache_match k c1 with
  | Some r => Some r
  | None => Cache_match k c2
  end.
Proof.
  induction c1 as [|[k0 r0] c1 IH]; simpl; [reflexivity|].
  destruct (String.eqb k0 k); [reflexivity|exact IH].
Qed.

(** A write is read back. *)
Lemma Cache_match_put_same (k : string) (r : Response) (c : Cache) :
  Cache_match k (Cache_put k r c) = Some r.
Proof.
  unfold Cache_put. rewrite Cache_match_app, Cache_match_delete_same.
  simpl. now rewrite string_eqb_refl.
Qed.

Lemma Cache_match_put_other (k k' : string) (r : Response) (c : Cache) :
  k' <> k -> Cache_match k (Cache_put k' r c) = Cache_match k c.
Proof.
  intros Hne. unfold Cache_put.
  rewrite Cache_match_app, Cache_match_delete_other by assumption.
  destruct (Cache_match k c); [reflexivity|]. simpl.
  destruct (String.eqb k' k) eqn:E; [|reflexivity].
  apply String.eqb_eq in E. contradiction.
Qed.

Lemma Cache_delete_absent (k : string) (c : Cache) :
  ~ In k (Cache_keys c) -> Cache_delete k c = c.
Proof.
  intros Hn. unfold Cache_delete. apply filter_all.
  intros [k0 r0] Hin. simpl.
  destruct (String.eqb k0 k) eqn:E; [|reflexivity].
  apply String.eqb_eq in E. subst k0. exfalso. apply Hn.
  unfold Cache_keys. change k with (fst (k, r0)). now apply in_map.
Qed.

(** Keys stay distinct under the two updates of a namespace. *)
Lemma Cache_keys_delete_incl (k k' : string) (c : Cache) :
  In k (Cache_keys (Cache_delete k' c)) -> In k (Cache_keys c) /\ k <> k'.
Proof.
  unfold Cache_keys, Cache_delete. intros H.
  apply in_map_iff in H. destruct H as [[k0 r0] [Hk Hin]]. simpl in Hk. subst k0.
  apply filter_In in Hin. destruct Hin as [Hin Hb]. simpl in Hb. split.
  - change k with (fst (k, r0)). now apply in_map.
  - intros ->. now rewrite string_eqb_refl in Hb.
Qed.

Lemma Cache_delete_NoDup (k : string) (c : Cache) :
  NoDup (Cache_keys c) -> NoDup (Cache_keys (Cache_delete k c)).
Proof.
  induction c as [|[k0 r0] c IH]; simpl; intros H; [constructor|].
  inversion H as [|? ? Hnin Hnd]; subst.
  destruct (String.eqb k0 k); simpl; [now apply IH|].
  constructor; [|now apply IH].
  intros Hin. apply Cache_keys_delete_incl in Hin. now apply Hnin.
Qed.

Lemma Cache_put_NoDup (k : string) (r : Response) (c : Cache) :
  NoDup (Cache_keys c) -> NoDup (Cache_keys (Cache_put k r c)).
Proof.
  intros H. unfold Cache_put, Cache_keys. rewrite map_app. simpl.
  apply NoDup_app.
  - now apply Cache_delete_NoDup.
  - repeat constructor. intros [].
  - intros x Hx [Hy|[]]. subst x.
    apply Cache_keys_delete_incl in Hx. now destruct Hx.
Qed.

(** *** Namespaces *)

Lemma find_cache_update (name name' : string) (f : Cache -> Cache)
    (cs : CacheStorage) :
  find_cache name (storage_update name' f cs) =
  if String.eqb name' name then option_map f (find_cache name cs)
  else find_cache name cs.
Proof.
  induction cs as [|[n c] cs IH]; simpl.
  - now destruct (String.eqb name' name).
  - destruct (String.eqb n name') eqn:E1; simpl.
    + apply String.eqb_eq in E1. subst n.
      destruct (String.eqb name' name); reflexivity.
    + destruct (String.eqb n name) eqn:E2.
      * destruct (String.eqb name' name) eqn:E3; [|reflexivity].
        apply String.eqb_eq in E2, E3. subst. now rewrite string_eqb_refl in E1.
      * exact IH.
Qed.

Lemma entries_update_same (name : string) (f : Cache -> Cache) (cs : CacheStorage) :
  find_cache name cs <> None ->
  entries name (storage_update name f cs) = f (entries name cs).
Proof.
  intros H. unfold entries. rewrite find_cache_update, string_eqb_refl.
  destruct (find_cache name cs); [reflexivity|contradiction].
Qed.

Lemma find_cache_open (name name' : string) (cs : CacheStorage) :
  find_cache name (storage_open name' cs) =
  match find_cache name cs with
  | Some c => Some c
  | None => if String.eqb name' name then Some [] else None
  end.
Proof.
  unfold storage_open. destruct (find_cache name' cs) eqn:E'.
  - destruct (find_cache name cs) eqn:E; [reflexivity|].
    destruct (String.eqb name' name) eqn:En; [|reflexivity].
    apply String.eqb_eq in En. subst. congruence.
  - clear E'. induction cs as [|[n c] cs IH]; simpl.
    + reflexivity.
    + destruct (String.eqb n name); [reflexivity|exact IH].
Qed.

Lemma entries_open (name name' : string) (cs : CacheStorage) :
  entries name (storage_open name' cs) = entries name cs.
Proof.
  unfold entries. rewrite find_cache_open.
  destruct (find_cache name cs); [reflexivity|].
  now destruct (String.eqb name' name).
Qed.

Lemma find_cache_open_same (name : string) (cs : CacheStorage) :
  find_cache name (storage_open name cs) <> None.
Proof.
  rewrite find_cache_open, string_eqb_refl.
  destruct (find_cache name cs); discriminate.
Qed.

(** ** Messages *)

(** C8 (the code as it runs): a [GET_VERSION] message is answered at once on
    the first port with [{version, cacheName}], where [cacheName] is the
    umbrella namespace name, which embeds the current version tag 2.1.7, while
    [version] is the literal 2.0.0, not the current version tag. *)
Theorem get_version_reply_has_stale_version :
  forall (p : nat) (others : list nat) (w : World),
    result (on_message (get_version_message p others)) w = Returned tt
    /\ posted (exec (on_message (get_version_message p others)) w)
       = posted w ++ [(p, [ ("version", JStr "2.0.0");
                            ("cacheName", JStr CACHE_NAME) ])]
    /\ CACHE_NAME = ("tests-hub-v" ++ VERSION_TAG)%string
    /\ STATIC_CACHE_NAME = ("tests-hub-static-v" ++ VERSION_TAG)%string
    /\ DYNAMIC_CACHE_NAME = ("tests-hub-dynamic-v" ++ VERSION_TAG)%string
    /\ String.eqb "2.0.0" VERSION_TAG = false.
Proof.
  intros p others w. repeat split; reflexivity.
Qed.

(** ** Push notifications *)

Lemma get_prop_set_prop (k k' : string) (v : JSValue) (o : JSObject) :
  get_prop k (set_prop k' v o) = if String.eqb k' k then v else get_prop k o.
Proof.
  induction o as [|[k0 v0] o IH]; simpl.
  - reflexivity.
  - destruct (String.eqb k0 k') eqn:E; simpl.
    + apply String.eqb_eq in E. subst k0.
      destruct (String.eqb k' k); reflexivity.
    + destruct (String.eqb k0 k) eqn:E2.
      * destruct (String.eqb k' k) eqn:E3; [|reflexivity].
        apply String.eqb_eq in E2, E3. subst. now rewrite string_eqb_refl in E.
      * exact IH.
Qed.

(** A spread overrides: a key of the payload wins, any other key keeps the
    value it had. *)
Lemma get_prop_spread (k : string) (o props : JSObject) :
  get_prop k (spread o (JObj props)) =
  match last_binding k props with
  | Some v => v
  | None => get_prop k o
  end.
Proof.
  unfold spread, last_binding. simpl.
  induction props as [|[k' v'] props IH] using rev_ind; simpl.
  - reflexivity.
  - rewrite fold_left_app, rev_app_distr. simpl.
    rewrite get_prop_set_prop.
    destruct (String.eqb k' k); [reflexivity|exact IH].
Qed.

(** C7: every push event shows one notification, whose title argument is the
    [title] of the final [notificationData]; a payload that parses as JSON is
    spread over the defaults (the payload with title X and body Y gives title
    X, body Y, the default icon and the default tag); a payload that does not
    parse leaves the defaults with the raw text as body and the default title;
    an event without payload shows the defaults. *)
Theorem push_always_shows_notification :
  forall (P : Platform) (w : World),
    (forall data : option PushMessageData,
        result (on_push P data) w = Returned tt
        /\ shown (exec (on_push P data) w)
           = shown w ++ [ mkNotification
                            (get_prop "title" (push_notificationData P data))
                            (push_notificationData P data) ])
    /\ (forall (raw : string) (v : JSValue),
          push_notificationData P (Some (mkPushData raw (Some v)))
          = spread (default_notificationData P) v)
    /\ (forall raw : string,
          let nd := push_notificationData P
                      (Some (mkPushData raw
                               (Some (JObj [("title", JStr "X"); ("body", JStr "Y")])))) in
          get_prop "title" nd = JStr "X"
          /\ get_prop "body" nd = JStr "Y"
          /\ get_prop "icon" nd = JStr NOTIFICATION_ICON
          /\ get_prop "tag" nd = JStr "testshub-update")
    /\ (forall raw : string,
          let nd := push_notificationData P (Some (mkPushData raw None)) in
          get_prop "body" nd = JStr raw
          /\ get_prop "title" nd = JStr "Tests Hub"
          /\ get_prop "icon" nd = JStr NOTIFICATION_ICON
          /\ get_prop "tag" nd = JStr "testshub-update")
    /\ push_notificationData P None = default_notificationData P.
Proof.
  intros P w. repeat split; reflexivity.
Qed.

Example push_json_string_keeps_default_body (P : Platform) :
  get_prop "body" (push_notificationData P
                     (Some (mkPushData (dq ++ "hello" ++ dq)%string (Some (JStr "hello")))))
  = JStr "New tests and updates available!".
Proof. reflexivity. Qed.

(** ** Cache-first strategy *)

Ltac run_sw :=
  unfold try_catch, bind, ret, throw, caches_match, start_background; simpl.

(** C5: an asset request whose stored response carries a capture date at most
    seven days old is answered by the listener through [cacheFirstStrategy],
    which returns the stored response itself and leaves the world as it was:
    no network request, no background task, no cache update. *)
Theorem cache_first_fresh_hit :
  forall (P : Platform) (request : Request) (w : World) (cached : Response)
         (dateHeader : string) (captured : Z),
    classify request = Asset ->
    storage_match (url request) (caches w) = Some cached ->
    Headers_get "date" (headers cached) = Some dateHeader ->
    Date_parse P dateHeader = Some captured ->
    now P - captured <= MAX_AGE_MS ->
    on_fetch P request = Some (cacheFirstStrategy P request)
    /\ cacheFirstStrategy P request w = (Returned (Some cached), w).
Proof.
  intros P request w cached dateHeader captured Hc Hm Hd Hp Hage. split.
  - unfold on_fetch. now rewrite Hc.
  - unfold cacheFirstStrategy. run_sw. rewrite Hm, Hd. simpl. rewrite Hp. simpl.
    replace (MAX_AGE_MS <? now P - captured) with false; [reflexivity|].
    symmetry. apply Z.ltb_ge. exact Hage.
Qed.

Lemma cache_first_fresh_hit_witness :
  on_fetch (sample_platform offline None 1000) (asset_request "/logo.png")
    = Some (cacheFirstStrategy (sample_platform offline None 1000)
              (asset_request "/logo.png"))
  /\ cacheFirstStrategy (sample_platform offline None 1000)
       (asset_request "/logo.png") fresh_world
     = (Returned (Some (page 200 (Some epoch_date) "PNG")), fresh_world).
Proof.
  apply (cache_first_fresh_hit (sample_platform offline None 1000)
           (asset_request "/logo.png") fresh_world
           (page 200 (Some epoch_date) "PNG") epoch_date 0).
  - reflexivity.
  - reflexivity.
  - reflexivity.
  - reflexivity.
  - vm_compute. discriminate.
Defined.

(** ** Network-first strategy *)

(** What [offlineResponse] builds for a document request. *)
Lemma offlineResponse_document (request : Request) :
  accepts_html request = true ->
  status (offlineResponse request) = 200
  /\ Headers_get "Content-Type" (headers (offlineResponse request)) = Some "text/html"
  /\ body (offlineResponse request) = offline_html
  /\ includes (body (offlineResponse request)) retry_control = true.
Proof.
  intros H. unfold offlineResponse. rewrite H. repeat split; vm_compute; reflexivity.
Qed.

Lemma offlineResponse_other (request : Request) :
  accepts_html request = false ->
  offlineResponse request
  = {| status := 503; statusText := "Service Unavailable";
       headers := [("content-type", "text/plain")]; body := "Offline" |}.
Proof.
  intros H. unfold offlineResponse. now rewrite H.
Qed.

Lemma classify_document (request : Request) :
  classify request = Document -> accepts_html request = true.
Proof.
  unfold classify.
  destruct (negb (String.eqb (method request) "GET")); [discriminate|].
  destruct (startsWith (url request) "chrome-extension://"); [discriminate|].
  destruct (includes (url request) "/api/"); [discriminate|].
  destruct (accepts_html request); [reflexivity|discriminate].
Qed.

(** The fallback chain of [networkFirstStrategy] once the fetch has failed. *)
Lemma network_first_offline (P : Platform) (request : Request) (w : World) :
  network P request = None ->
  networkFirstStrategy P request w =
  (Returned
     match storage_match (url request) (caches w) with
     | Some cached => Some cached
     | None =>
         if accepts_html request
         then storage_match (origin P ++ "/")%string (caches w)
         else Some (offlineResponse request)
     end,
   log_fetch w request).
Proof.
  intros Hn. unfold networkFirstStrategy, fetch. run_sw. rewrite Hn. simpl.
  destruct (storage_match (url request) (caches w)); [reflexivity|].
  destruct (accepts_html request); reflexivity.
Qed.

(** C1 (amended): a document request whose fetch fails and which has no cache
    entry is answered by the listener through [networkFirstStrategy] with the
    root entry [/] found in the caches, when one is stored; the offline page
    (status 200, content type text/html, a retry button in the body) is what
    [offlineResponse] builds for a document request. *)
Theorem network_first_document_falls_back_to_shell :
  forall (P : Platform) (request : Request) (w : World) (shell : Response),
    classify request = Document ->
    network P request = None ->
    storage_match (url request) (caches w) = None ->
    storage_match (origin P ++ "/")%string (caches w) = Some shell ->
    on_fetch P request = Some (networkFirstStrategy P request)
    /\ networkFirstStrategy P request w = (Returned (Some shell), log_fetch w request)
    /\ status (offlineResponse request) = 200
    /\ Headers_get "Content-Type" (headers (offlineResponse request)) = Some "text/html"
    /\ includes (body (offlineResponse request)) retry_control = true.
Proof.
  intros P request w shell Hc Hn Hm Hs.
  pose proof (offlineResponse_document request (classify_document request Hc))
    as [Hst [Hct [_ Hb]]].
  repeat split; try assumption.
  - unfold on_fetch. now rewrite Hc.
  - rewrite network_first_offline by assumption.
    rewrite Hm, (classify_document request Hc), Hs. reflexivity.
Qed.

Lemma network_first_document_falls_back_to_shell_witness :
  on_fetch (sample_platform offline None 1000) (html_request "/Tests_7th.html")
    = Some (networkFirstStrategy (sample_platform offline None 1000)
              (html_request "/Tests_7th.html"))
  /\ networkFirstStrategy (sample_platform offline None 1000)
       (html_request "/Tests_7th.html") shell_only_world
     = (Returned (Some shell_page),
        log_fetch shell_only_world (html_request "/Tests_7th.html"))
  /\ status (offlineResponse (html_request "/Tests_7th.html")) = 200
  /\ Headers_get "Content-Type" (headers (offlineResponse (html_request "/Tests_7th.html")))
     = Some "text/html"
  /\ includes (body (offlineResponse (html_request "/Tests_7th.html"))) retry_control = true.
Proof.
  apply (network_first_document_falls_back_to_shell
           (sample_platform offline None 1000) (html_request "/Tests_7th.html")
           shell_only_world shell_page); reflexivity.
Defined.

(** C1 (as stated) fails: with the root page cached, a document request with
    no entry of its own and no network gets the root page, which is not the
    offline page. *)
Lemma network_first_document_not_offline_page :
  classify (html_request "/Tests_7th.html") = Document
  /\ network (sample_platform offline None 1000) (html_request "/Tests_7th.html") = None
  /\ storage_match (url (html_request "/Tests_7th.html")) (caches shell_only_world) = None
  /\ result (networkFirstStrategy (sample_platform offline None 1000)
               (html_request "/Tests_7th.html")) shell_only_world
     = Returned (Some shell_page)
  /\ body shell_page <> body (offlineResponse (html_request "/Tests_7th.html")).
Proof.
  repeat split; try reflexivity. vm_compute. discriminate.
Qed.

(** With no root page stored either, the strategy resolves to [undefined]:
    the document branch of [offlineResponse] is never reached from it. *)
Lemma network_first_document_without_shell (P : Platform) (request : Request) (w : World) :
  accepts_html request = true ->
  network P request = None ->
  storage_match (url request) (caches w) = None ->
  storage_match (origin P ++ "/")%string (caches w) = None ->
  result (networkFirstStrategy P request) w = Returned None.
Proof.
  intros Ha Hn Hm Hs. unfold result.
  rewrite network_first_offline by assumption. now rewrite Hm, Ha, Hs.
Qed.

(** ** Cache writes *)

(** [cacheResponse] never throws; it opens the dynamic namespace, evicts, and
    writes. *)
Lemma cacheResponse_run (P : Platform) (request : Request) (response : Response)
    (w : World) :
  cacheResponse P request response w =
  (Returned tt,
   with_caches w
     (storage_update DYNAMIC_CACHE_NAME (Cache_put (url request) response)
        (evict_oldest P (storage_open DYNAMIC_CACHE_NAME (caches w))))).
Proof.
  unfold cacheResponse, evict_oldest, caches_open, cache_keys, cache_delete,
    cache_put, modify_caches, bind, ret. simpl.
  destruct (storage_estimate P) as [e|]; simpl; [|reflexivity].
  destruct (over_quota e); simpl; [|reflexivity].
  destruct (Cache_keys (entries DYNAMIC_CACHE_NAME
                          (storage_open DYNAMIC_CACHE_NAME (caches w))));
    reflexivity.
Qed.

Lemma find_cache_evict (P : Platform) (cs : CacheStorage) :
  find_cache DYNAMIC_CACHE_NAME cs <> None ->
  find_cache DYNAMIC_CACHE_NAME (evict_oldest P cs) <> None.
Proof.
  intros H. unfold evict_oldest.
  destruct (storage_estimate P) as [e|]; [|exact H].
  destruct (over_quota e); [|exact H].
  destruct (Cache_keys (entries DYNAMIC_CACHE_NAME cs)); [exact H|].
  rewrite find_cache_update, string_eqb_refl.
  destruct (find_cache DYNAMIC_CACHE_NAME cs); [discriminate|contradiction].
Qed.

(** The response written by [cacheResponse] is in the dynamic namespace
    afterwards, whatever its status. *)
Lemma cacheResponse_stores (P : Platform) (request : Request) (response : Response)
    (w : World) :
  Cache_match (url request)
    (entries DYNAMIC_CACHE_NAME (caches (exec (cacheResponse P request response) w)))
  = Some response.
Proof.
  unfold exec. rewrite cacheResponse_run. simpl.
  rewrite entries_update_same.
  - apply Cache_match_put_same.
  - apply find_cache_evict, find_cache_open_same.
Qed.

(** [fetchAndCache] writes only a response of status 200. *)
Lemma fetchAndCache_run (P : Platform) (request : Request) (w : World) :
  fetchAndCache P request w =
  match network P request with
  | Some response =>
      if status response =? 200
      then (Returned response,
            exec (cacheResponse P request response) (log_fetch w request))
      else (Returned response, log_fetch w request)
  | None => (Thrown NetworkError, log_fetch w request)
  end.
Proof.
  unfold fetchAndCache, fetch, bind, ret, exec. simpl.
  destruct (network P request) as [r|]; [|reflexivity].
  fold (log_fetch w request).
  destruct (status r =? 200); [|reflexivity].
  rewrite cacheResponse_run. reflexivity.
Qed.

(** [networkFirstStrategy] writes whatever the network answered. *)
Lemma network_first_online (P : Platform) (request : Request) (w : World)
    (response : Response) :
  network P request = Some response ->
  networkFirstStrategy P request w =
  (Returned (Some response),
   exec (cacheResponse P request response) (log_fetch w request)).
Proof.
  intros Hn. unfold networkFirstStrategy, fetch, try_catch, bind, ret, exec. simpl.
  rewrite Hn. fold (log_fetch w request).
  rewrite cacheResponse_run. reflexivity.
Qed.

(** C2 (the code as it runs): with a server answering 404, the write-through
    of [networkFirstStrategy] stores the 404 response in the dynamic
    namespace, breaking the rule that only 2xx responses are stored. *)
Theorem network_first_stores_non_2xx :
  let P := sample_platform answers_404 None 1000 in
  let request := html_request "/missing.html" in
  let w' := exec (networkFirstStrategy P request) empty_world in
  classify request = Document
  /\ on_fetch P request = Some (networkFirstStrategy P request)
  /\ result (networkFirstStrategy P request) empty_world = Returned (Some not_found_page)
  /\ caches w' = [ (DYNAMIC_CACHE_NAME, [ (url request, not_found_page) ]) ]
  /\ ok not_found_page = false
  /\ only_ok (caches empty_world) = true
  /\ only_ok (caches w') = false.
Proof.
  repeat split; reflexivity.
Qed.

(** ** Invariants of programs *)

Section Preservation.
Variable I : World -> Prop.

Lemma preserves_ret {A} (a : A) : preserves I (ret a).
Proof. intros w H. exact H. Qed.

Lemma preserves_throw {A} (e : Error) : preserves I (@throw A e).
Proof. intros w H. exact H. Qed.

Lemma preserves_bind {A B} (m : SW A) (k : A -> SW B) :
  preserves I m -> (forall a, preserves I (k a)) -> preserves I (bind m k).
Proof.
  intros Hm Hk w H. unfold exec, bind.
  specialize (Hm w H). unfold exec in Hm.
  destruct (m w) as [[a|e] w']; simpl in *.
  - apply (Hk a w' Hm).
  - exact Hm.
Qed.

Lemma preserves_try_catch {A} (m : SW A) (h : Error -> SW A) :
  preserves I m -> (forall e, preserves I (h e)) -> preserves I (try_catch m h).
Proof.
  intros Hm Hh w H. unfold exec, try_catch.
  specialize (Hm w H). unfold exec in Hm.
  destruct (m w) as [[a|e] w']; simpl in *.
  - exact Hm.
  - apply (Hh e w' Hm).
Qed.

Lemma preserves_for_of {A} (l : list A) (f : A -> SW unit) :
  (forall x, In x l -> preserves I (f x)) -> preserves I (for_of l f).
Proof.
  induction l as [|x l IH]; intros Hf; simpl.
  - apply preserves_ret.
  - apply preserves_bind.
    + apply Hf. now left.
    + intros _. apply IH. intros y Hy. apply Hf. now right.
Qed.

(** A program that does not touch the caches keeps any property of them. *)
Lemma preserves_same_caches {A} (m : SW A) :
  (forall w w', I w -> caches w' = caches w -> I w') ->
  (forall w, caches (exec m w) = caches w) ->
  preserves I m.
Proof.
  intros Hext Hm w H. apply (Hext w); [exact H|apply Hm].
Qed.
End Preservation.

(** *** Only 2xx responses are stored: the paths that keep the rule *)

Lemma only_ok_cache_delete (k : string) (c : Cache) :
  only_ok_cache c = true -> only_ok_cache (Cache_delete k c) = true.
Proof.
  unfold only_ok_cache, Cache_delete. intros H.
  apply forallb_forall. intros e He. apply filter_In in He.
  rewrite forallb_forall in H. now apply H.
Qed.

Lemma only_ok_cache_put (k : string) (r : Response) (c : Cache) :
  ok r = true -> only_ok_cache c = true -> only_ok_cache (Cache_put k r c) = true.
Proof.
  intros Hr H. unfold Cache_put, only_ok_cache. rewrite forallb_app.
  fold (only_ok_cache (Cache_delete k c)).
  rewrite only_ok_cache_delete by assumption. simpl. now rewrite Hr.
Qed.

Lemma only_ok_open (name : string) (cs : CacheStorage) :
  only_ok cs = true -> only_ok (storage_open name cs) = true.
Proof.
  intros H. unfold storage_open. destruct (find_cache name cs); [exact H|].
  unfold only_ok. rewrite forallb_app. fold (only_ok cs). now rewrite H.
Qed.

Lemma only_ok_update (name : string) (f : Cache -> Cache) (cs : CacheStorage) :
  (forall c, only_ok_cache c = true -> only_ok_cache (f c) = true) ->
  only_ok cs = true -> only_ok (storage_update name f cs) = true.
Proof.
  intros Hf. induction cs as [|[n c] cs IH]; simpl; intros H; [reflexivity|].
  apply andb_true_iff in H. destruct H as [Hc Hcs].
  destruct (String.eqb n name); simpl; apply andb_true_iff; split; auto.
Qed.

Lemma only_ok_evict (P : Platform) (cs : CacheStorage) :
  only_ok cs = true -> only_ok (evict_oldest P cs) = true.
Proof.
  intros H. unfold evict_oldest.
  destruct (storage_estimate P) as [e|]; [|exact H].
  destruct (over_quota e); [|exact H].
  destruct (Cache_keys (entries DYNAMIC_CACHE_NAME cs)); [exact H|].
  apply only_ok_update; [|exact H]. intros c. apply only_ok_cache_delete.
Qed.

Lemma cacheResponse_only_ok (P : Platform) (request : Request) (response : Response) :
  ok response = true ->
  preserves (fun w => only_ok (caches w) = true) (cacheResponse P request response).
Proof.
  intros Hr w H. unfold exec. rewrite cacheResponse_run. simpl.
  apply only_ok_update.
  - intros c. now apply only_ok_cache_put.
  - now apply only_ok_evict, only_ok_open.
Qed.

Lemma fetchAndCache_only_ok (P : Platform) (request : Request) :
  preserves (fun w => only_ok (caches w) = true) (fetchAndCache P request).
Proof.
  intros w H. unfold exec. rewrite fetchAndCache_run.
  destruct (network P request) as [r|]; [|exact H].
  destruct (status r =? 200) eqn:E; [|exact H]. simpl.
  apply (cacheResponse_only_ok P request r); [|exact H].
  apply Z.eqb_eq in E. unfold ok. rewrite E. reflexivity.
Qed.

Lemma updateCachedContent_only_ok (P : Platform) :
  preserves (fun w => only_ok (caches w) = true) (updateCachedContent P).
Proof.
  unfold updateCachedContent.
  apply preserves_try_catch; [|intros e; apply preserves_ret].
  apply preserves_bind.
  - apply preserves_for_of. intros path _.
    apply preserves_try_catch; [|intros e; apply preserves_ret].
    apply preserves_bind.
    + intros w H. unfold exec, fetch.
      destruct (network P (Request_of P path)); exact H.
    + intros response. destruct (ok response) eqn:Hok; [|apply preserves_ret].
      apply preserves_bind.
      * intros w H. simpl. now apply only_ok_open.
      * intros cache w H. simpl. apply only_ok_update; [|exact H].
        intros c. now apply only_ok_cache_put.
  - intros _ w H. exact H.
Qed.

(** ** Activation *)

Lemma mem_string_In (s : string) (l : list string) :
  In s l -> mem_string s l = true.
Proof.
  intros H. unfold mem_string. apply existsb_exists. exists s.
  split; [exact H|apply string_eqb_refl].
Qed.

Lemma activate_guard (cacheName : string) :
  negb (String.eqb cacheName CACHE_NAME)
  && negb (String.eqb cacheName STATIC_CACHE_NAME)
  && negb (String.eqb cacheName DYNAMIC_CACHE_NAME)
  = negb (is_current cacheName).
Proof.
  unfold is_current.
  destruct (String.eqb cacheName CACHE_NAME),
           (String.eqb cacheName STATIC_CACHE_NAME),
           (String.eqb cacheName DYNAMIC_CACHE_NAME); reflexivity.
Qed.

(** The clean-up loop over a list of names keeps the current namespaces and
    those the list does not name. *)
Lemma activate_loop_run (cacheNames : list string) (w : World) :
  activate_loop cacheNames w =
  (Returned tt,
   with_caches w
     (filter (fun nc => is_current (fst nc) || negb (mem_string (fst nc) cacheNames))
        (caches w))).
Proof.
  revert w. induction cacheNames as [|n l IH]; intros w.
  - simpl. unfold ret. f_equal.
    rewrite filter_all.
    + now destruct w.
    + intros x _. apply orb_true_r.
  - unfold activate_loop in *. simpl for_of. unfold bind.
    rewrite activate_guard.
    destruct (is_current n) eqn:Hn; simpl.
    + rewrite IH. unfold with_caches. do 2 f_equal.
      apply filter_ext. intros [n' c']. simpl.
      destruct (String.eqb n' n) eqn:E; [|reflexivity].
      apply String.eqb_eq in E. subst n'. rewrite Hn. reflexivity.
    + rewrite IH. unfold with_caches. simpl. do 2 f_equal.
      unfold storage_delete. rewrite filter_filter.
      apply filter_ext. intros [n' c']. simpl.
      destruct (String.eqb n' n) eqn:E; simpl; [|reflexivity].
      apply String.eqb_eq in E. subst n'. rewrite Hn. reflexivity.
Qed.

Lemma storage_keys_filter (p : string -> bool) (cs : CacheStorage) :
  storage_keys (filter (fun nc => p (fst nc)) cs) = filter p (storage_keys cs).
Proof.
  unfold storage_keys. induction cs as [|[n c] cs IH]; [reflexivity|].
  cbn [filter map fst]. destruct (p n); cbn [map fst]; now rewrite IH.
Qed.

(** C3 (amended): activation returns, claims the clients, and leaves exactly
    the namespaces that existed before under one of the three current names,
    in their order and with their entries; every name left is current. *)
Theorem activate_keeps_only_current :
  forall w : World,
    result on_activate w = Returned tt
    /\ caches (exec on_activate w)
       = filter (fun nc => is_current (fst nc)) (caches w)
    /\ storage_keys (caches (exec on_activate w))
       = filter is_current (storage_keys (caches w))
    /\ forallb is_current (storage_keys (caches (exec on_activate w))) = true
    /\ clients_claimed (exec on_activate w) = true.
Proof.
  intros w.
  assert (Hrun : on_activate w =
                 (Returned tt,
                  with_caches
                    {| caches := caches w; fetched := fetched w; pending := pending w;
                       shown := shown w; posted := posted w;
                       skipWaiting_calls := skipWaiting_calls w;
                       clients_claimed := true |}
                    (filter (fun nc => is_current (fst nc)) (caches w)))).
  { unfold on_activate, bind, clients_claim, caches_keys. simpl.
    fold (activate_loop (storage_keys (caches w))).
    rewrite activate_loop_run. simpl. f_equal. f_equal.
    apply filter_ext_in. intros [n c] Hin. simpl.
    rewrite mem_string_In; [apply orb_false_r|].
    unfold storage_keys. change n with (fst (n, c)). now apply in_map. }
  unfold result, exec. rewrite Hrun. simpl.
  pose proof (storage_keys_filter is_current (caches w)) as Hk.
  repeat split; try reflexivity.
  - exact Hk.
  - rewrite Hk. apply forallb_forall. intros x Hx.
    apply filter_In in Hx. now destruct Hx.
Qed.

(** C3 (as stated) fails: after installing and activating over the caches of
    the previous version, only the static namespace exists; the umbrella and
    the dynamic namespace are not among the names enumerated.  Activating
    without a current namespace leaves none. *)
Lemma activate_not_three_namespaces :
  let P := sample_platform serves_shell None 1000 in
  storage_keys (caches (exec on_activate (exec (on_install P) previous_version_world)))
    = [ STATIC_CACHE_NAME ]
  /\ storage_keys (caches (exec on_activate previous_version_world)) = []
  /\ [ STATIC_CACHE_NAME ] <> [ CACHE_NAME; STATIC_CACHE_NAME; DYNAMIC_CACHE_NAME ].
Proof.
  repeat split; try reflexivity. discriminate.
Qed.

(** ** Quota guard *)

Lemma entries_nonempty_found (name : string) (cs : CacheStorage) (e : string * Response)
    (c : Cache) :
  entries name cs = e :: c -> find_cache name cs = Some (e :: c).
Proof.
  unfold entries. destruct (find_cache name cs); intros H; [now subst|discriminate].
Qed.

Lemma storage_open_existing (name : string) (cs : CacheStorage) (c : Cache) :
  find_cache name cs = Some c -> storage_open name cs = cs.
Proof.
  intros H. unfold storage_open. now rewrite H.
Qed.

(** C4: under quota pressure and with a non-empty dynamic namespace,
    [cacheResponse] returns normally after deleting the entry of the first
    key in insertion order, and only that one, from the dynamic namespace and
    then writing the new entry: the namespace ends as the former entries
    without the first, with the new entry put, and the new entry is read
    back. *)
Theorem quota_eviction_removes_first_entry :
  forall (P : Platform) (request : Request) (response : Response) (w : World)
         (estimate : StorageEstimate) (oldestKey : string) (oldest : Response)
         (rest : Cache),
    storage_estimate P = Some estimate ->
    over_quota estimate = true ->
    entries DYNAMIC_CACHE_NAME (caches w) = (oldestKey, oldest) :: rest ->
    NoDup (Cache_keys (entries DYNAMIC_CACHE_NAME (caches w))) ->
    result (cacheResponse P request response) w = Returned tt
    /\ caches (exec (cacheResponse P request response) w)
       = storage_update DYNAMIC_CACHE_NAME (Cache_put (url request) response)
           (storage_update DYNAMIC_CACHE_NAME (Cache_delete oldestKey) (caches w))
    /\ Cache_delete oldestKey (entries DYNAMIC_CACHE_NAME (caches w)) = rest
    /\ entries DYNAMIC_CACHE_NAME (caches (exec (cacheResponse P request response) w))
       = Cache_put (url request) response rest
    /\ Cache_match (url request)
         (entries DYNAMIC_CACHE_NAME (caches (exec (cacheResponse P request response) w)))
       = Some response.
Proof.
  intros P request response w estimate oldestKey oldest rest Hest Hover Hent Hnd.
  pose proof (entries_nonempty_found _ _ _ _ Hent) as Hfind.
  assert (Hdel : Cache_delete oldestKey (entries DYNAMIC_CACHE_NAME (caches w)) = rest).
  { rewrite Hent in *. simpl. rewrite string_eqb_refl. simpl.
    apply Cache_delete_absent. now inversion Hnd. }
  assert (Hrun : caches (exec (cacheResponse P request response) w)
                 = storage_update DYNAMIC_CACHE_NAME (Cache_put (url request) response)
                     (storage_update DYNAMIC_CACHE_NAME (Cache_delete oldestKey)
                        (caches w))).
  { unfold exec. rewrite cacheResponse_run. simpl.
    rewrite (storage_open_existing _ _ _ Hfind).
    unfold evict_oldest. rewrite Hest, Hover, Hent. reflexivity. }
  assert (Hentries :
            entries DYNAMIC_CACHE_NAME (caches (exec (cacheResponse P request response) w))
            = Cache_put (url request) response rest).
  { rewrite Hrun. rewrite entries_update_same.
    - rewrite entries_update_same; [now rewrite Hdel|]. rewrite Hfind. discriminate.
    - rewrite find_cache_update, string_eqb_refl, Hfind. discriminate. }
  repeat split.
  - unfold result. now rewrite cacheResponse_run.
  - exact Hrun.
  - exact Hdel.
  - exact Hentries.
  - apply cacheResponse_stores.
Qed.

Lemma quota_eviction_removes_first_entry_witness :
  let P := sample_platform offline (Some nearly_full) 1000 in
  let request := html_request "/c.html" in
  let response := page 200 None "C" in
  entries DYNAMIC_CACHE_NAME (caches (exec (cacheResponse P request response)
                                        two_entries_world))
  = [ ((sample_origin ++ "/b.html")%string, page 200 None "B");
      ((sample_origin ++ "/c.html")%string, page 200 None "C") ].
Proof.
  intros P request response.
  destruct (quota_eviction_removes_first_entry P request response two_entries_world
              nearly_full (sample_origin ++ "/a.html")%string (page 200 None "A")
              [ ((sample_origin ++ "/b.html")%string, page 200 None "B") ])
    as [_ [_ [_ [H _]]]].
  - reflexivity.
  - reflexivity.
  - reflexivity.
  - vm_compute. repeat constructor; simpl; intuition discriminate.
  - rewrite H. reflexivity.
Defined.

(** ** Stale entries and background refresh *)

Lemma classify_asset (P : Platform) (request : Request) :
  classify request = Asset -> on_fetch P request = Some (cacheFirstStrategy P request).
Proof.
  intros H. unfold on_fetch. now rewrite H.
Qed.

(** A cache hit: the stored response is returned; a background
    [fetchAndCache] is started exactly when the age test of the strategy
    succeeds. *)
Lemma cache_first_hit (P : Platform) (request : Request) (w : World)
    (cached : Response) :
  storage_match (url request) (caches w) = Some cached ->
  cacheFirstStrategy P request w =
  (Returned (Some cached),
   if age_exceeds (now P) (new_Date P (Headers_get "date" (headers cached))) MAX_AGE_MS
   then add_pending w request
   else w).
Proof.
  intros Hm. unfold cacheFirstStrategy. run_sw. rewrite Hm. simpl.
  destruct (age_exceeds (now P) (new_Date P (Headers_get "date" (headers cached)))
              MAX_AGE_MS); reflexivity.
Qed.

(** The one background task of a handler that started from no pending task. *)
Lemma run_pending_single (P : Platform) (request : Request) (w : World) :
  pending w = [] ->
  run_pending P (add_pending w request) = exec (fetchAndCache P request) w.
Proof.
  intros Hp. unfold run_pending, add_pending. simpl. rewrite Hp. simpl.
  destruct w as [cs f p s po sk cl]. simpl in *. subst p. reflexivity.
Qed.

(** C6 (amended): a stale hit on an asset request returns the stored response
    at once, with the caches untouched, no network result consumed, and one
    background [fetchAndCache] started.  When that task runs, a response of status 200 is
    written under the request's key in the dynamic namespace (after the quota
    eviction of [cacheResponse]) and is read back from there; a failed fetch or
    any other status leaves all namespaces as they were. *)
Theorem cache_first_stale_hit_revalidates :
  forall (P : Platform) (request : Request) (w : World) (cached : Response)
         (dateHeader : string) (captured : Z),
    classify request = Asset ->
    storage_match (url request) (caches w) = Some cached ->
    Headers_get "date" (headers cached) = Some dateHeader ->
    Date_parse P dateHeader = Some captured ->
    MAX_AGE_MS < now P - captured ->
    pending w = [] ->
    on_fetch P request = Some (cacheFirstStrategy P request)
    /\ cacheFirstStrategy P request w = (Returned (Some cached), add_pending w request)
    /\ caches (run_pending P (add_pending w request))
       = match network P request with
         | Some fresh =>
             if status fresh =? 200
             then storage_update DYNAMIC_CACHE_NAME (Cache_put (url request) fresh)
                    (evict_oldest P (storage_open DYNAMIC_CACHE_NAME (caches w)))
             else caches w
         | None => caches w
         end
    /\ (forall fresh : Response,
          network P request = Some fresh ->
          status fresh = 200 ->
          Cache_match (url request)
            (entries DYNAMIC_CACHE_NAME (caches (run_pending P (add_pending w request))))
          = Some fresh).
Proof.
  intros P request w cached dateHeader captured Hc Hm Hd Hp Hage Hpend.
  split; [now apply classify_asset|]. split.
  - rewrite (cache_first_hit P request w cached Hm), Hd. simpl. rewrite Hp. simpl.
    replace (MAX_AGE_MS <? now P - captured) with true; [reflexivity|].
    symmetry. now apply Z.ltb_lt.
  - rewrite run_pending_single by assumption. unfold exec at 1 2.
    rewrite fetchAndCache_run. split.
    + destruct (network P request) as [fresh|]; [|reflexivity].
      destruct (status fresh =? 200); [|reflexivity].
      unfold exec. rewrite cacheResponse_run. reflexivity.
    + intros fresh Hn Hs. rewrite Hn, Hs. simpl.
      replace (caches (exec (cacheResponse P request fresh) (log_fetch w request)))
        with (caches (exec (cacheResponse P request fresh) w)).
      * apply cacheResponse_stores.
      * unfold exec. now rewrite !cacheResponse_run.
Qed.

Lemma cache_first_stale_hit_revalidates_witness :
  let P := sample_platform serves_new_manifest None (2 * MAX_AGE_MS) in
  let request := asset_request "/manifest.json" in
  cacheFirstStrategy P request stale_dynamic_world
    = (Returned (Some old_manifest), add_pending stale_dynamic_world request)
  /\ Cache_match (url request)
       (entries DYNAMIC_CACHE_NAME
          (caches (run_pending P (add_pending stale_dynamic_world request))))
     = Some new_manifest.
Proof.
  intros P request.
  destruct (cache_first_stale_hit_revalidates P request stale_dynamic_world
              old_manifest epoch_date 0)
    as [_ [Hret [_ Hfresh]]].
  - reflexivity.
  - reflexivity.
  - reflexivity.
  - reflexivity.
  - vm_compute. reflexivity.
  - reflexivity.
  - split; [exact Hret|]. apply Hfresh; reflexivity.
Defined.

(** C6 (as stated) fails: the stale entry sits in the static namespace, the
    background fetch succeeds with status 200, and the entry the strategy
    reads is still the stale one afterwards: the refresh went to the dynamic
    namespace. *)
Lemma cache_first_stale_static_entry_not_overwritten :
  let P := sample_platform serves_new_manifest None (2 * MAX_AGE_MS) in
  let request := asset_request "/manifest.json" in
  let w1 := exec (cacheFirstStrategy P request) stale_static_world in
  let w2 := run_pending P w1 in
  classify request = Asset
  /\ result (cacheFirstStrategy P request) stale_static_world
     = Returned (Some old_manifest)
  /\ pending w1 = [ request ]
  /\ network P request = Some new_manifest
  /\ status new_manifest = 200
  /\ storage_match (url request) (caches w2) = Some old_manifest
  /\ storage_match (url request) (caches w2) <> Some new_manifest
  /\ result (cacheFirstStrategy P request) w2 = Returned (Some old_manifest).
Proof.
  repeat split; try reflexivity. vm_compute. discriminate.
Qed.

(** ** Entries without a parseable date *)

Lemma entries_update (name : string) (f : Cache -> Cache) (cs : CacheStorage)
    (c : Cache) :
  find_cache name cs = Some c -> entries name (storage_update name f cs) = f c.
Proof.
  intros H. unfold entries. now rewrite find_cache_update, string_eqb_refl, H.
Qed.

Lemma cleanup_run (P : Platform) (w : World) :
  cleanupOldCacheEntries P w =
  for_of (Cache_keys (entries DYNAMIC_CACHE_NAME (caches w)))
    (fun request =>
       response <- cache_match DYNAMIC_CACHE_NAME request ;;
       match response with
       | Some response =>
           match Headers_get "date" (headers response) with
           | Some dateHeader =>
               if negb (String.eqb dateHeader EmptyString) then
                 if age_exceeds (now P) (Date_parse P dateHeader) MAX_AGE_MS
                 then cache_delete DYNAMIC_CACHE_NAME request
                 else ret tt
               else ret tt
           | None => ret tt
           end
       | None => ret tt
       end)
    (with_caches w (storage_open DYNAMIC_CACHE_NAME (caches w))).
Proof.
  unfold cleanupOldCacheEntries, caches_open, cache_keys, modify_caches, bind, ret.
  simpl. now rewrite entries_open.
Qed.

(** The sweep keeps every dynamic entry whose response has no parseable
    date. *)
Lemma cleanup_keeps_undated (P : Platform) (key : string) (r : Response) :
  parsed_date P r = None ->
  preserves
    (fun w => Cache_match key (entries DYNAMIC_CACHE_NAME (caches w)) = Some r)
    (cleanupOldCacheEntries P).
Proof.
  intros Hdate w H. unfold exec. rewrite cleanup_run.
  apply (preserves_for_of
           (fun w => Cache_match key (entries DYNAMIC_CACHE_NAME (caches w)) = Some r)).
  - intros request _ w0 H0. unfold exec, bind, cache_match. simpl.
    destruct (Cache_match request (entries DYNAMIC_CACHE_NAME (caches w0)))
      as [response|] eqn:Hresp; [|exact H0].
    destruct (Headers_get "date" (headers response)) as [dateHeader|] eqn:Hh;
      [|exact H0].
    destruct (negb (String.eqb dateHeader EmptyString)); [|exact H0].
    destruct (age_exceeds (now P) (Date_parse P dateHeader) MAX_AGE_MS) eqn:Hage;
      [|exact H0].
    simpl.
    destruct (String.eqb request key) eqn:E.
    + apply String.eqb_eq in E. subst request.
      rewrite H0 in Hresp. injection Hresp as <-.
      unfold parsed_date in Hdate. rewrite Hh in Hdate. rewrite Hdate in Hage.
      discriminate.
    + assert (Hne : request <> key).
      { intros ->. now rewrite string_eqb_refl in E. }
      destruct (find_cache DYNAMIC_CACHE_NAME (caches w0)) as [c|] eqn:Hf.
      * rewrite (entries_update _ _ _ _ Hf).
        rewrite Cache_match_delete_other by assumption.
        unfold entries in H0. now rewrite Hf in H0.
      * unfold entries in H0. rewrite Hf in H0. discriminate.
  - simpl. now rewrite entries_open.
Qed.

(** C10 (amended): a stored response without a parseable [date] header is
    never deleted by [cleanupOldCacheEntries]; [cacheFirstStrategy] returns it,
    with no background refresh at any time when the header is present and
    does not parse, and with the missing header read as the epoch otherwise,
    so that a background refresh is started as soon as the clock is more than
    seven days past the epoch. *)
Theorem undated_entry_handling :
  forall (P : Platform) (w : World) (r : Response),
    parsed_date P r = None ->
    (forall key : string,
        Cache_match key (entries DYNAMIC_CACHE_NAME (caches w)) = Some r ->
        Cache_match key
          (entries DYNAMIC_CACHE_NAME (caches (exec (cleanupOldCacheEntries P) w)))
        = Some r)
    /\ (forall request : Request,
          storage_match (url request) (caches w) = Some r ->
          cacheFirstStrategy P request w =
          (Returned (Some r),
           match Headers_get "date" (headers r) with
           | Some _ => w
           | None => if MAX_AGE_MS <? now P then add_pending w request else w
           end)).
Proof.
  intros P w r Hdate. split.
  - intros key H. now apply (cleanup_keeps_undated P key r Hdate w).
  - intros request Hm. rewrite (cache_first_hit P request w r Hm).
    unfold parsed_date in Hdate.
    destruct (Headers_get "date" (headers r)) as [v|]; simpl.
    + now rewrite Hdate.
    + now rewrite Z.sub_0_r.
Qed.

Lemma undated_entry_handling_witness :
  let P := sample_platform offline None year_2026 in
  Cache_match (sample_origin ++ "/garbled.png")%string
    (entries DYNAMIC_CACHE_NAME (caches (exec (cleanupOldCacheEntries P) undated_world)))
  = Some garbled_page
  /\ cacheFirstStrategy P (asset_request "/garbled.png") undated_world
     = (Returned (Some garbled_page), undated_world).
Proof.
  intros P.
  destruct (undated_entry_handling P undated_world garbled_page) as [Hsweep Hhit].
  - reflexivity.
  - split.
    + apply Hsweep. reflexivity.
    + apply (Hhit (asset_request "/garbled.png")). reflexivity.
Defined.

(** The sweep does delete a dated stale entry of the same namespace. *)
Example cleanup_deletes_dated_stale_entry :
  Cache_keys
    (entries DYNAMIC_CACHE_NAME
       (caches (exec (cleanupOldCacheEntries (sample_platform offline None year_2026))
                  undated_world)))
  = [ (sample_origin ++ "/undated.png")%string; (sample_origin ++ "/garbled.png")%string ].
Proof. reflexivity. Qed.

(** C10 (as stated) fails: a stored response with no [date] header at all is
    treated as stale by [cacheFirstStrategy], which starts a background
    refresh for it. *)
Lemma undated_entry_is_refreshed :
  let P := sample_platform offline None year_2026 in
  let request := asset_request "/undated.png" in
  Headers_get "date" (headers undated_page) = None
  /\ parsed_date P undated_page = None
  /\ storage_match (url request) (caches undated_world) = Some undated_page
  /\ result (cacheFirstStrategy P request) undated_world = Returned (Some undated_page)
  /\ pending undated_world = []
  /\ pending (exec (cacheFirstStrategy P request) undated_world) = [ request ].
Proof.
  repeat split; reflexivity.
Qed.

(** ** Installation *)

Section Install.
Variable P : Platform.

Lemma fetch_ok_run (q : Request) (w : World) :
  fetch_ok P q w =
  (match network P q with
   | Some r => if ok r then Returned r else Thrown (TypeError "Request failed")
   | None => Thrown NetworkError
   end,
   log_fetch w q).
Proof.
  unfold fetch_ok, fetch, bind, log_fetch.
  destruct (network P q) as [r|]; [|reflexivity].
  destruct (ok r); reflexivity.
Qed.

Lemma map_await_fetch_ok (requests : list Request) (w : World) :
  caches (snd (map_await (fetch_ok P) requests w)) = caches w
  /\ match fetch_all_ok P requests with
     | Some rs => fst (map_await (fetch_ok P) requests w) = Returned rs
     | None => exists e, fst (map_await (fetch_ok P) requests w) = Thrown e
     end.
Proof.
  revert w. induction requests as [|q requests IH]; intros w.
  - split; reflexivity.
  - assert (E : map_await (fetch_ok P) (q :: requests) w =
                match fetch_ok P q w with
                | (Returned y, w') =>
                    match map_await (fetch_ok P) requests w' with
                    | (Returned ys, w'') => (Returned (y :: ys), w'')
                    | (Thrown e, w'') => (Thrown e, w'')
                    end
                | (Thrown e, w') => (Thrown e, w')
                end) by reflexivity.
    rewrite E, fetch_ok_run. clear E. cbn [fetch_all_ok].
    destruct (network P q) as [r|]; [|split; [reflexivity|now eexists]].
    destruct (ok r); [|split; [reflexivity|now eexists]].
    destruct (IH (log_fetch w q)) as [Hc Hr].
    destruct (map_await (fetch_ok P) requests (log_fetch w q)) as [[rs|e] w1];
      cbn [fst snd] in *; (split; [exact Hc|]);
      destruct (fetch_all_ok P requests) as [rs'|]; cbn [option_map].
    + now injection Hr as ->.
    + destruct Hr as [e He]. discriminate.
    + discriminate.
    + now exists e.
Qed.

Lemma storage_update_compose (name : string) (f g : Cache -> Cache)
    (cs : CacheStorage) :
  storage_update name f (storage_update name g cs)
  = storage_update name (fun c => f (g c)) cs.
Proof.
  induction cs as [|[n c] cs IH]; simpl; [reflexivity|].
  destruct (String.eqb n name) eqn:E; simpl; rewrite E; [reflexivity|].
  now rewrite IH.
Qed.

Lemma storage_update_ext (name : string) (f g : Cache -> Cache) (cs : CacheStorage) :
  (forall c, f c = g c) -> storage_update name f cs = storage_update name g cs.
Proof.
  intros H. induction cs as [|[n c] cs IH]; simpl; [reflexivity|].
  destruct (String.eqb n name); [now rewrite H|now rewrite IH].
Qed.

Lemma storage_update_id (name : string) (cs : CacheStorage) :
  storage_update name (fun c => c) cs = cs.
Proof.
  induction cs as [|[n c] cs IH]; simpl; [reflexivity|].
  destruct (String.eqb n name); [reflexivity|now rewrite IH].
Qed.

Lemma for_of_put_run (cache : string) (prs : list (string * Response)) (w : World) :
  for_of prs (fun pr => cache_put cache (Request_of P (fst pr)) (snd pr)) w
  = (Returned tt, with_caches w (storage_update cache (put_all P prs) (caches w))).
Proof.
  revert w. induction prs as [|pr prs IH]; intros w; simpl.
  - unfold ret, put_all. simpl. rewrite storage_update_id. now destruct w.
  - unfold bind, cache_put at 1, modify_caches. rewrite IH.
    unfold with_caches. simpl. do 2 f_equal.
    rewrite storage_update_compose. reflexivity.
Qed.

(** The namespaces after [install]. *)
Lemma on_install_caches (w : World) :
  caches (exec (on_install P) w) =
  match fetch_all_ok P (map (Request_of P) STATIC_ASSETS) with
  | Some rs =>
      storage_update STATIC_CACHE_NAME (put_all P (combine STATIC_ASSETS rs))
        (storage_open STATIC_CACHE_NAME (caches w))
  | None => storage_open STATIC_CACHE_NAME (caches w)
  end.
Proof.
  unfold exec, on_install, cache_addAll, skipWaiting, caches_open, modify_caches.
  unfold bind at 1 2 3 4. unfold ret at 1. cbn [fst snd].
  match goal with |- context [map_await (fetch_ok P) ?l ?w0] =>
    destruct (map_await_fetch_ok l w0) as [Hc Hr];
    destruct (map_await (fetch_ok P) l w0) as [[rs|e] w1] end;
  cbn [fst snd] in *;
  destruct (fetch_all_ok P (map (Request_of P) STATIC_ASSETS)) as [rs'|].
  - injection Hr as ->. rewrite for_of_put_run. cbn [snd]. unfold with_caches.
    cbn [caches]. now rewrite Hc.
  - destruct Hr as [e He]. discriminate.
  - discriminate.
  - exact Hc.
Qed.

(** *** Writing a batch twice *)

Lemma append_prefix_injective (p a b : string) :
  (p ++ a)%string = (p ++ b)%string -> a = b.
Proof.
  induction p as [|c p IH]; simpl; intros H; [exact H|].
  injection H as H. now apply IH.
Qed.

Lemma put_all_closed_form (prs : list (string * Response)) (c : Cache) :
  NoDup (batch_keys P prs) ->
  put_all P prs c
  = filter (fun e => negb (mem_string (fst e) (batch_keys P prs))) c
    ++ map (fun pr => (url (Request_of P (fst pr)), snd pr)) prs.
Proof.
  revert c. induction prs as [|[p r] prs IH]; intros c Hnd.
  - simpl. rewrite app_nil_r. symmetry. now apply filter_all.
  - inversion Hnd as [|? ? Hnin Hnd']; subst.
    unfold put_all in *. cbn [fold_left fst snd]. rewrite IH by assumption.
    unfold Cache_put, Cache_delete. rewrite filter_app, filter_filter.
    cbn [filter fst map snd batch_keys].
    replace (mem_string (url (Request_of P p)) (batch_keys P prs)) with false.
    + cbn [negb]. rewrite <- app_assoc. cbn [app]. f_equal.
      apply filter_ext. intros [k v]. cbn [fst mem_string existsb map].
      fold (mem_string k (batch_keys P prs)).
      rewrite negb_orb. reflexivity.
    + symmetry. apply not_true_is_false. intros Hmem.
      unfold mem_string in Hmem. apply existsb_exists in Hmem.
      destruct Hmem as [x [Hx Heq]]. apply String.eqb_eq in Heq. subst x.
      contradiction.
Qed.

Lemma put_all_idempotent (prs : list (string * Response)) (c : Cache) :
  NoDup (batch_keys P prs) ->
  put_all P prs (put_all P prs c) = put_all P prs c.
Proof.
  intros Hnd. rewrite (put_all_closed_form prs (put_all P prs c) Hnd).
  rewrite (put_all_closed_form prs c Hnd).
  rewrite filter_app, filter_filter. f_equal.
  - rewrite (filter_none _ (map _ prs)).
    + rewrite app_nil_r. apply filter_ext. intros e.
      now destruct (negb (mem_string (fst e) (batch_keys P prs))).
    + intros [k v] Hin. apply in_map_iff in Hin.
      destruct Hin as [[p r] [Heq Hin]]. injection Heq as <- <-. cbn [fst].
      rewrite mem_string_In; [reflexivity|].
      unfold batch_keys. apply in_map_iff. now exists (p, r).
Qed.

Lemma batch_keys_NoDup (paths : list string) (rs : list Response) :
  NoDup paths -> NoDup (batch_keys P (combine paths rs)).
Proof.
  revert rs. induction paths as [|p paths IH]; intros rs Hnd; [constructor|].
  destruct rs as [|r rs]; [constructor|].
  inversion Hnd as [|? ? Hnin Hnd']; subst.
  cbn [combine batch_keys map fst]. constructor; [|now apply IH].
  intros Hin. apply in_map_iff in Hin. destruct Hin as [[p' r'] [Heq Hin]].
  cbn [fst Request_of url] in Heq. apply append_prefix_injective in Heq. subst p'.
  apply Hnin. now apply in_combine_l in Hin.
Qed.
End Install.

Lemma STATIC_ASSETS_NoDup : NoDup STATIC_ASSETS.
Proof.
  unfold STATIC_ASSETS.
  repeat (constructor; [simpl; intuition discriminate|]). constructor.
Qed.

(** C9: installing a second time over the result of a first installation,
    with the same asset list and the same network answers, leaves the static
    namespace, and every other namespace, as the first installation left
    them. *)
Theorem install_twice_same_static_namespace :
  forall (P : Platform) (w : World),
    entries STATIC_CACHE_NAME (caches (exec (on_install P) (exec (on_install P) w)))
    = entries STATIC_CACHE_NAME (caches (exec (on_install P) w))
    /\ caches (exec (on_install P) (exec (on_install P) w))
       = caches (exec (on_install P) w).
Proof.
  intros P w.
  assert (H : caches (exec (on_install P) (exec (on_install P) w))
              = caches (exec (on_install P) w)).
  { rewrite (on_install_caches P (exec (on_install P) w)).
    rewrite (on_install_caches P w).
    destruct (fetch_all_ok P (map (Request_of P) STATIC_ASSETS)) as [rs|].
    - rewrite (storage_open_existing STATIC_CACHE_NAME
                 (storage_update STATIC_CACHE_NAME _ _)
                 (put_all P (combine STATIC_ASSETS rs)
                    (entries STATIC_CACHE_NAME
                       (storage_open STATIC_CACHE_NAME (caches w))))).
      + rewrite storage_update_compose. apply storage_update_ext.
        intros c. apply put_all_idempotent.
        apply batch_keys_NoDup, STATIC_ASSETS_NoDup.
      + rewrite find_cache_update, string_eqb_refl. unfold entries.
        pose proof (find_cache_open_same STATIC_CACHE_NAME (caches w)) as Hopen.
        destruct (find_cache STATIC_CACHE_NAME
                    (storage_open STATIC_CACHE_NAME (caches w)));
          [reflexivity|contradiction].
    - pose proof (find_cache_open_same STATIC_CACHE_NAME (caches w)) as Hopen.
      destruct (find_cache STATIC_CACHE_NAME
                  (storage_open STATIC_CACHE_NAME (caches w))) as [c|] eqn:E;
        [|contradiction].
      apply (storage_open_existing _ _ _ E). }
  split; [now rewrite H|exact H].
Qed.

(** An installation that succeeds fills the static namespace with the eleven
    assets, in the order of the list; one failing asset leaves it empty. *)
Example install_fills_static_namespace :
  Cache_keys
    (entries STATIC_CACHE_NAME
       (caches (exec (on_install (sample_platform serves_shell None 1000)) empty_world)))
  = map (fun path => (sample_origin ++ path)%string) STATIC_ASSETS.
Proof. reflexivity. Qed.

Example install_is_all_or_nothing :
  result (on_install (sample_platform lacks_manifest None 1000)) empty_world
  = Thrown (TypeError "Request failed")
  /\ caches (exec (on_install (sample_platform lacks_manifest None 1000)) empty_world)
     = [ (STATIC_CACHE_NAME, []) ].
Proof. split; reflexivity. Qed.

(** ** Routing *)

(** X1: the [fetch] listener leaves a request to the browser exactly when its
    method is not GET or its URL starts with the extension scheme; every
    other request is answered by one of the two strategies. *)
Theorem on_fetch_bypass_exactly_non_get_or_extension :
  forall (P : Platform) (request : Request),
    match on_fetch P request with
    | None => true
    | Some _ => false
    end
    = negb (String.eqb (method request) "GET")
      || startsWith (url request) "chrome-extension://".
Proof.
  intros P request. unfold on_fetch, classify.
  destruct (negb (String.eqb (method request) "GET")); [reflexivity|].
  destruct (startsWith (url request) "chrome-extension://"); [reflexivity|].
  destruct (includes (url request) "/api/"); [reflexivity|].
  destruct (accepts_html request); reflexivity.
Qed.

(** X2: a URL containing [/api/] is routed to [networkFirstStrategy] whatever
    its Accept header; without it, the Accept header decides between
    [networkFirstStrategy] (HTML accepted) and [cacheFirstStrategy]. *)
Theorem on_fetch_routes_get_requests :
  forall (P : Platform) (request : Request),
    String.eqb (method request) "GET" = true ->
    startsWith (url request) "chrome-extension://" = false ->
    on_fetch P request
    = Some (if includes (url request) "/api/" || accepts_html request
            then networkFirstStrategy P request
            else cacheFirstStrategy P request).
Proof.
  intros P request Hm Hs. unfold on_fetch, classify. rewrite Hm, Hs. simpl.
  destruct (includes (url request) "/api/"); [reflexivity|].
  destruct (accepts_html request); reflexivity.
Qed.

Lemma on_fetch_routes_get_requests_witness :
  on_fetch (sample_platform offline None 1000) (api_request "/api/tests")
  = Some (networkFirstStrategy (sample_platform offline None 1000)
            (api_request "/api/tests")).
Proof.
  apply (on_fetch_routes_get_requests (sample_platform offline None 1000)
           (api_request "/api/tests")); reflexivity.
Defined.

(** ** Strategies: misses and failures *)

Lemma classify_asset_not_html (request : Request) :
  classify request = Asset -> accepts_html request = false.
Proof.
  unfold classify.
  destruct (negb (String.eqb (method request) "GET")); [discriminate|].
  destruct (startsWith (url request) "chrome-extension://"); [discriminate|].
  destruct (includes (url request) "/api/"); [discriminate|].
  destruct (accepts_html request); [discriminate|reflexivity].
Qed.

(** A cache miss of [cacheFirstStrategy]. *)
Lemma cache_first_miss (P : Platform) (request : Request) (w : World) :
  storage_match (url request) (caches w) = None ->
  cacheFirstStrategy P request w =
  match network P request with
  | Some response =>
      (Returned (Some response),
       if status response =? 200
       then exec (cacheResponse P request response) (log_fetch w request)
       else log_fetch w request)
  | None =>
      (Returned (if accepts_html request
                 then storage_match (origin P ++ "/")%string (caches w)
                 else Some network_error_response),
       log_fetch w request)
  end.
Proof.
  intros Hm. unfold cacheFirstStrategy, try_catch. unfold bind at 1.
  unfold caches_match at 1. rewrite Hm. unfold bind. rewrite fetchAndCache_run.
  destruct (network P request) as [response|].
  - destruct (status response =? 200); reflexivity.
  - unfold caches_match, ret. simpl. destruct (accepts_html request); reflexivity.
Qed.

(** X3: neither strategy lets an exception escape: whatever the network and
    the caches, each resolves (to a response or to [undefined]). *)
Theorem strategies_never_throw :
  forall (P : Platform) (request : Request) (w : World),
    (exists r, result (networkFirstStrategy P request) w = Returned r)
    /\ (exists r, result (cacheFirstStrategy P request) w = Returned r).
Proof.
  intros P request w. unfold result. split.
  - destruct (network P request) as [response|] eqn:Hn.
    + rewrite (network_first_online P request w response Hn). now eexists.
    + rewrite (network_first_offline P request w Hn). now eexists.
  - destruct (storage_match (url request) (caches w)) as [cached|] eqn:Hm.
    + rewrite (cache_first_hit P request w cached Hm). now eexists.
    + rewrite (cache_first_miss P request w Hm).
      destruct (network P request); now eexists.
Qed.

(** X4: an asset request that misses the caches while the network is down is
    answered with the plain-text 408 response, and nothing is written. *)
Theorem cache_first_miss_offline_gives_408 :
  forall (P : Platform) (request : Request) (w : World),
    classify request = Asset ->
    storage_match (url request) (caches w) = None ->
    network P request = None ->
    cacheFirstStrategy P request w
    = (Returned (Some network_error_response), log_fetch w request)
    /\ status network_error_response = 408
    /\ body network_error_response = "Network error occurred"
    /\ Headers_get "Content-Type" (headers network_error_response) = Some "text/plain".
Proof.
  intros P request w Hc Hm Hn. split; [|repeat split].
  rewrite (cache_first_miss P request w Hm), Hn.
  now rewrite (classify_asset_not_html request Hc).
Qed.

Lemma cache_first_miss_offline_gives_408_witness :
  result (cacheFirstStrategy (sample_platform offline None 1000)
            (asset_request "/logo.png")) empty_world
  = Returned (Some network_error_response).
Proof.
  unfold result.
  destruct (cache_first_miss_offline_gives_408 (sample_platform offline None 1000)
              (asset_request "/logo.png") empty_world) as [H _];
    [reflexivity|reflexivity|reflexivity|].
  now rewrite H.
Defined.

(** X5: a request that does not accept HTML (an API call), with the network
    down and no cache entry, is answered by [networkFirstStrategy] with the
    plain-text 503 response. *)
Theorem network_first_offline_non_document_gives_503 :
  forall (P : Platform) (request : Request) (w : World),
    accepts_html request = false ->
    network P request = None ->
    storage_match (url request) (caches w) = None ->
    networkFirstStrategy P request w
    = (Returned (Some service_unavailable_response), log_fetch w request)
    /\ status service_unavailable_response = 503
    /\ statusText service_unavailable_response = "Service Unavailable"
    /\ body service_unavailable_response = "Offline".
Proof.
  intros P request w Ha Hn Hm. split; [|repeat split].
  rewrite (network_first_offline P request w Hn), Hm, Ha.
  unfold offlineResponse. now rewrite Ha.
Qed.

Lemma network_first_offline_non_document_gives_503_witness :
  result (networkFirstStrategy (sample_platform offline None 1000)
            (api_request "/api/tests")) empty_world
  = Returned (Some service_unavailable_response).
Proof.
  unfold result.
  destruct (network_first_offline_non_document_gives_503
              (sample_platform offline None 1000) (api_request "/api/tests")
              empty_world) as [H _];
    [reflexivity|reflexivity|reflexivity|].
  now rewrite H.
Defined.

(** ** Written entries are found again *)

Lemma unshadowed_open (key : string) (cs : CacheStorage) :
  unshadowed key cs = true ->
  unshadowed key (storage_open DYNAMIC_CACHE_NAME cs) = true.
Proof.
  intros H. unfold storage_open.
  destruct (find_cache DYNAMIC_CACHE_NAME cs); [exact H|].
  unfold unshadowed. rewrite forallb_app. fold (unshadowed key cs). rewrite H.
  reflexivity.
Qed.

Lemma unshadowed_update (key : string) (f : Cache -> Cache) (cs : CacheStorage) :
  unshadowed key cs = true ->
  unshadowed key (storage_update DYNAMIC_CACHE_NAME f cs) = true.
Proof.
  induction cs as [|[n c] cs IH]; intros H; [reflexivity|].
  cbn [unshadowed forallb fst snd] in H. apply andb_true_iff in H.
  destruct H as [Hh Ht]. cbn [storage_update].
  destruct (String.eqb n DYNAMIC_CACHE_NAME) eqn:E;
    cbn [unshadowed forallb fst snd]; rewrite E; cbn [orb].
  - exact Ht.
  - cbn [orb] in Hh. rewrite Hh. now apply IH.
Qed.

Lemma unshadowed_evict (P : Platform) (key : string) (cs : CacheStorage) :
  unshadowed key cs = true -> unshadowed key (evict_oldest P cs) = true.
Proof.
  intros H. unfold evict_oldest.
  destruct (storage_estimate P) as [e|]; [|exact H].
  destruct (over_quota e); [|exact H].
  destruct (Cache_keys (entries DYNAMIC_CACHE_NAME cs)); [exact H|].
  now apply unshadowed_update.
Qed.


(** A write to the dynamic namespace is what [caches.match] finds when no
    other namespace stores the key. *)
Lemma storage_match_update_unshadowed (key : string) (r : Response)
    (f : Cache -> Cache) (cs : CacheStorage) :
  unshadowed key cs = true ->
  find_cache DYNAMIC_CACHE_NAME cs <> None ->
  (forall c, Cache_match key (f c) = Some r) ->
  storage_match key (storage_update DYNAMIC_CACHE_NAME f cs) = Some r.
Proof.
  intros Hu Hf Hr. induction cs as [|[n c] cs IH]; [now contradiction Hf|].
  cbn [unshadowed forallb fst snd] in Hu. apply andb_true_iff in Hu.
  destruct Hu as [Hh Ht]. cbn [storage_update find_cache] in *.
  destruct (String.eqb n DYNAMIC_CACHE_NAME) eqn:E; cbn [storage_match].
  - now rewrite Hr.
  - cbn [orb] in Hh. destruct (Cache_match key c); [discriminate|].
    now apply IH.
Qed.

Lemma cacheResponse_visible (P : Platform) (request : Request) (response : Response)
    (w : World) :
  unshadowed (url request) (caches w) = true ->
  storage_match (url request) (caches (exec (cacheResponse P request response) w))
  = Some response.
Proof.
  intros Hu. unfold exec. rewrite cacheResponse_run. cbn [snd with_caches caches].
  apply storage_match_update_unshadowed.
  - now apply unshadowed_evict, unshadowed_open.
  - apply find_cache_evict, find_cache_open_same.
  - intros c. apply Cache_match_put_same.
Qed.

(** X6: what [networkFirstStrategy] fetched is what it answers with when the
    same request comes back while the network is down, provided no namespace
    other than the dynamic one stores an entry for the URL; this holds under
    quota pressure too. *)
Theorem network_first_online_then_offline :
  forall (P P' : Platform) (request : Request) (response : Response) (w : World),
    network P request = Some response ->
    unshadowed (url request) (caches w) = true ->
    network P' request = None ->
    result (networkFirstStrategy P request) w = Returned (Some response)
    /\ result (networkFirstStrategy P' request)
         (exec (networkFirstStrategy P request) w)
       = Returned (Some response).
Proof.
  intros P P' request response w Hn Hu Hn'. unfold result, exec.
  rewrite (network_first_online P request w response Hn). split; [reflexivity|].
  cbn [snd]. rewrite (network_first_offline P' request _ Hn'). cbn [fst].
  replace (caches (exec (cacheResponse P request response) (log_fetch w request)))
    with (caches (exec (cacheResponse P request response) w))
    by (unfold exec; now rewrite !cacheResponse_run).
  now rewrite (cacheResponse_visible P request response w Hu).
Qed.

Lemma network_first_online_then_offline_witness :
  result (networkFirstStrategy (sample_platform offline (Some nearly_full) 2000)
            (html_request "/a.html"))
    (exec (networkFirstStrategy
             (sample_platform (serves shell_page) (Some nearly_full) 1000)
             (html_request "/a.html")) two_entries_world)
  = Returned (Some shell_page).
Proof.
  apply (network_first_online_then_offline
           (sample_platform (serves shell_page) (Some nearly_full) 1000)
           (sample_platform offline (Some nearly_full) 2000)
           (html_request "/a.html") shell_page two_entries_world); reflexivity.
Defined.

(** X7: on a cache miss, [cacheFirstStrategy] hands the network response to
    the caller whatever its status, and leaves every namespace as it was
    unless the status is 200. *)
Theorem cache_first_miss_does_not_store_non_200 :
  forall (P : Platform) (request : Request) (response : Response) (w : World),
    storage_match (url request) (caches w) = None ->
    network P request = Some response ->
    status response <> 200 ->
    cacheFirstStrategy P request w = (Returned (Some response), log_fetch w request)
    /\ caches (exec (cacheFirstStrategy P request) w) = caches w.
Proof.
  intros P request response w Hm Hn Hs. unfold exec.
  rewrite (cache_first_miss P request w Hm), Hn.
  replace (status response =? 200) with false; [split; reflexivity|].
  symmetry. now apply Z.eqb_neq.
Qed.

Lemma cache_first_miss_does_not_store_non_200_witness :
  caches (exec (cacheFirstStrategy (sample_platform answers_404 None 1000)
                  (asset_request "/logo.png")) empty_world)
  = [].
Proof.
  destruct (cache_first_miss_does_not_store_non_200
              (sample_platform answers_404 None 1000) (asset_request "/logo.png")
              not_found_page empty_world) as [_ H].
  - reflexivity.
  - reflexivity.
  - vm_compute. discriminate.
  - exact H.
Defined.



(** ** [cacheResponse] without eviction, and what it leaves alone *)

Lemma entries_update_other (name name' : string) (f : Cache -> Cache)
    (cs : CacheStorage) :
  name' <> name -> entries name (storage_update name' f cs) = entries name cs.
Proof.
  intros Hne. unfold entries. rewrite find_cache_update.
  destruct (String.eqb name' name) eqn:E; [|reflexivity].
  apply String.eqb_eq in E. contradiction.
Qed.

(** X9: without quota pressure (no estimate, or at most nine tenths used),
    or with an empty dynamic namespace, [cacheResponse] evicts nothing: the
    dynamic namespace becomes its former entries with the new one put. *)
Theorem cacheResponse_without_eviction :
  forall (P : Platform) (request : Request) (response : Response) (w : World),
    under_pressure P = false \/ entries DYNAMIC_CACHE_NAME (caches w) = [] ->
    result (cacheResponse P request response) w = Returned tt
    /\ entries DYNAMIC_CACHE_NAME (caches (exec (cacheResponse P request response) w))
       = Cache_put (url request) response (entries DYNAMIC_CACHE_NAME (caches w)).
Proof.
  intros P request response w H. unfold result, exec. rewrite cacheResponse_run.
  split; [reflexivity|]. cbn [snd with_caches caches].
  assert (He : evict_oldest P (storage_open DYNAMIC_CACHE_NAME (caches w))
               = storage_open DYNAMIC_CACHE_NAME (caches w)).
  { unfold evict_oldest. unfold under_pressure in H.
    destruct (storage_estimate P) as [e|]; [|reflexivity].
    destruct (over_quota e); [|reflexivity].
    destruct H as [H|H]; [discriminate|].
    now rewrite entries_open, H. }
  rewrite He, entries_update_same by apply find_cache_open_same.
  now rewrite entries_open.
Qed.

Lemma cacheResponse_without_eviction_witness :
  entries DYNAMIC_CACHE_NAME
    (caches (exec (cacheResponse (sample_platform offline (Some nearly_full) 1000)
                     (html_request "/c.html") shell_page) empty_world))
  = [ ((sample_origin ++ "/c.html")%string, shell_page) ].
Proof.
  destruct (cacheResponse_without_eviction
              (sample_platform offline (Some nearly_full) 1000)
              (html_request "/c.html") shell_page empty_world) as [_ H].
  - right. reflexivity.
  - rewrite H. reflexivity.
Defined.

(** X10: [cacheResponse] changes no namespace but the dynamic one, with or
    without eviction. *)
Theorem cacheResponse_touches_only_dynamic :
  forall (P : Platform) (request : Request) (response : Response) (w : World)
         (name : string),
    name <> DYNAMIC_CACHE_NAME ->
    entries name (caches (exec (cacheResponse P request response) w))
    = entries name (caches w).
Proof.
  intros P request response w name Hne. unfold exec. rewrite cacheResponse_run.
  cbn [snd with_caches caches].
  rewrite entries_update_other by congruence.
  unfold evict_oldest.
  destruct (storage_estimate P) as [e|]; [|apply entries_open].
  destruct (over_quota e); [|apply entries_open].
  destruct (Cache_keys (entries DYNAMIC_CACHE_NAME
                          (storage_open DYNAMIC_CACHE_NAME (caches w))));
    [apply entries_open|].
  rewrite entries_update_other by congruence. apply entries_open.
Qed.

Lemma cacheResponse_touches_only_dynamic_witness :
  entries STATIC_CACHE_NAME
    (caches (exec (cacheResponse (sample_platform offline (Some nearly_full) 1000)
                     (html_request "/") shell_page) shell_only_world))
  = [ ((sample_origin ++ "/")%string, shell_page) ].
Proof.
  rewrite (cacheResponse_touches_only_dynamic
             (sample_platform offline (Some nearly_full) 1000)
             (html_request "/") shell_page shell_only_world STATIC_CACHE_NAME).
  - reflexivity.
  - vm_compute. discriminate.
Defined.

Lemma Cache_delete_length (k : string) (c : Cache) :
  (length (Cache_delete k c) <= length c)%nat.
Proof. unfold Cache_delete. apply filter_length_le. Qed.

(** X11: under quota pressure a write does not make a non-empty dynamic
    namespace larger. *)
Theorem cacheResponse_under_pressure_does_not_grow :
  forall (P : Platform) (request : Request) (response : Response) (w : World),
    under_pressure P = true ->
    entries DYNAMIC_CACHE_NAME (caches w) <> [] ->
    (length (entries DYNAMIC_CACHE_NAME
               (caches (exec (cacheResponse P request response) w)))
     <= length (entries DYNAMIC_CACHE_NAME (caches w)))%nat.
Proof.
  intros P request response w Hp Hne. unfold exec. rewrite cacheResponse_run.
  cbn [snd with_caches caches].
  rewrite entries_update_same by apply find_cache_evict, find_cache_open_same.
  unfold evict_oldest. unfold under_pressure in Hp.
  destruct (storage_estimate P) as [e|]; [|discriminate]. rewrite Hp.
  rewrite entries_open.
  destruct (entries DYNAMIC_CACHE_NAME (caches w)) as [|[k0 r0] rest] eqn:He;
    [contradiction|].
  cbn [Cache_keys map fst].
  rewrite entries_update_same by apply find_cache_open_same.
  rewrite entries_open, He. unfold Cache_put. rewrite length_app. cbn [length].
  pose proof (Cache_delete_length (url request) (Cache_delete k0 ((k0, r0) :: rest))).
  assert (length (Cache_delete k0 ((k0, r0) :: rest)) <= length rest)%nat.
  { cbn [Cache_delete filter fst]. rewrite string_eqb_refl. cbn [negb].
    apply (Cache_delete_length k0 rest). }
  lia.
Qed.

Lemma cacheResponse_under_pressure_does_not_grow_witness :
  (length (entries DYNAMIC_CACHE_NAME
             (caches (exec (cacheResponse
                              (sample_platform offline (Some nearly_full) 1000)
                              (html_request "/c.html") shell_page)
                        two_entries_world)))
   <= 2)%nat.
Proof.
  apply (cacheResponse_under_pressure_does_not_grow
           (sample_platform offline (Some nearly_full) 1000)
           (html_request "/c.html") shell_page two_entries_world).
  - reflexivity.
  - vm_compute. discriminate.
Defined.

(** ** Properties of the store kept by every handler *)

Section StoreInvariant.
Variable I : CacheStorage -> Prop.
Hypothesis I_open_static : forall cs, I cs -> I (storage_open STATIC_CACHE_NAME cs).
Hypothesis I_open_dynamic : forall cs, I cs -> I (storage_open DYNAMIC_CACHE_NAME cs).
Hypothesis I_put :
  forall name key r cs, I cs -> I (storage_update name (Cache_put key r) cs).
Hypothesis I_delete_entry :
  forall name key cs, I cs -> I (storage_update name (Cache_delete key) cs).
Hypothesis I_delete : forall name cs, I cs -> I (storage_delete name cs).

Let J : World -> Prop := fun w => I (caches w).

Lemma keeps_fetch (P : Platform) (request : Request) : preserves J (fetch P request).
Proof.
  intros w H. unfold exec, fetch. destruct (network P request); exact H.
Qed.

Lemma keeps_evict (P : Platform) (cs : CacheStorage) : I cs -> I (evict_oldest P cs).
Proof.
  intros H. unfold evict_oldest.
  destruct (storage_estimate P) as [e|]; [|exact H].
  destruct (over_quota e); [|exact H].
  destruct (Cache_keys (entries DYNAMIC_CACHE_NAME cs)); [exact H|].
  now apply I_delete_entry.
Qed.

Lemma keeps_cacheResponse (P : Platform) (request : Request) (response : Response) :
  preserves J (cacheResponse P request response).
Proof.
  intros w H. unfold exec, J. rewrite cacheResponse_run. cbn [snd with_caches caches].
  now apply I_put, keeps_evict, I_open_dynamic.
Qed.

Lemma keeps_fetchAndCache (P : Platform) (request : Request) :
  preserves J (fetchAndCache P request).
Proof.
  intros w H. unfold exec. rewrite fetchAndCache_run.
  destruct (network P request) as [r|]; [|exact H].
  destruct (status r =? 200); [|exact H].
  apply (keeps_cacheResponse P request r (log_fetch w request)). exact H.
Qed.

Lemma keeps_networkFirstStrategy (P : Platform) (request : Request) :
  preserves J (networkFirstStrategy P request).
Proof.
  intros w H. unfold exec.
  destruct (network P request) as [r|] eqn:Hn.
  - rewrite (network_first_online P request w r Hn).
    apply (keeps_cacheResponse P request r (log_fetch w request)). exact H.
  - rewrite (network_first_offline P request w Hn). exact H.
Qed.

Lemma keeps_cacheFirstStrategy (P : Platform) (request : Request) :
  preserves J (cacheFirstStrategy P request).
Proof.
  intros w H. unfold exec.
  destruct (storage_match (url request) (caches w)) as [cached|] eqn:Hm.
  - rewrite (cache_first_hit P request w cached Hm). cbn [snd].
    destruct (age_exceeds _ _ _); exact H.
  - rewrite (cache_first_miss P request w Hm).
    destruct (network P request) as [r|]; [|exact H]. cbn [snd].
    destruct (status r =? 200); [|exact H].
    apply (keeps_cacheResponse P request r (log_fetch w request)). exact H.
Qed.

Lemma keeps_run_pending (P : Platform) (w : World) : J w -> J (run_pending P w).
Proof.
  intros H. unfold run_pending.
  assert (Hgen : forall l w0, J w0 ->
            J (fold_left (fun w' request => exec (fetchAndCache P request) w') l w0)).
  { induction l as [|q l IH]; intros w0 H0; [exact H0|].
    cbn [fold_left]. apply IH. now apply keeps_fetchAndCache. }
  apply Hgen. exact H.
Qed.

Lemma keeps_updateCachedContent (P : Platform) : preserves J (updateCachedContent P).
Proof.
  unfold updateCachedContent.
  apply preserves_try_catch; [|intros e; apply preserves_ret].
  apply preserves_bind.
  - apply preserves_for_of. intros path _.
    apply preserves_try_catch; [|intros e; apply preserves_ret].
    apply preserves_bind; [apply keeps_fetch|].
    intros response. destruct (ok response); [|apply preserves_ret].
    apply preserves_bind.
    + intros w H. now apply I_open_dynamic.
    + intros cache w H. now apply I_put.
  - intros _ w H. exact H.
Qed.

Lemma keeps_cleanupOldCacheEntries (P : Platform) :
  preserves J (cleanupOldCacheEntries P).
Proof.
  unfold cleanupOldCacheEntries.
  apply preserves_bind; [intros w H; now apply I_open_dynamic|].
  intros cache. apply preserves_bind; [intros w H; exact H|].
  intros requests. apply preserves_for_of. intros request _.
  apply preserves_bind; [intros w H; exact H|].
  intros [response|]; [|apply preserves_ret].
  destruct (Headers_get "date" (headers response)) as [dateHeader|];
    [|apply preserves_ret].
  destruct (negb (String.eqb dateHeader EmptyString)); [|apply preserves_ret].
  destruct (age_exceeds (now P) (Date_parse P dateHeader) MAX_AGE_MS);
    [|apply preserves_ret].
  intros w H. now apply I_delete_entry.
Qed.

Lemma keeps_map_await_fetch_ok (P : Platform) (requests : list Request) :
  preserves J (map_await (fetch_ok P) requests).
Proof.
  induction requests as [|q requests IH]; [apply preserves_ret|].
  cbn [map_await]. apply preserves_bind.
  - unfold fetch_ok. apply preserves_bind; [apply keeps_fetch|].
    intros r. destruct (ok r); [apply preserves_ret|apply preserves_throw].
  - intros y. apply preserves_bind; [exact IH|]. intros ys. apply preserves_ret.
Qed.

Lemma keeps_on_install (P : Platform) : preserves J (on_install P).
Proof.
  unfold on_install.
  apply preserves_bind; [intros w H; exact H|]. intros _.
  apply preserves_bind; [intros w H; now apply I_open_static|].
  intros cache. unfold cache_addAll.
  apply preserves_bind; [apply keeps_map_await_fetch_ok|].
  intros responses. apply preserves_for_of. intros pr _ w H. now apply I_put.
Qed.

Lemma keeps_on_activate : preserves J on_activate.
Proof.
  unfold on_activate.
  apply preserves_bind; [intros w H; exact H|]. intros _.
  apply preserves_bind; [intros w H; exact H|].
  intros cacheNames. apply preserves_for_of. intros cacheName _.
  destruct (negb (String.eqb cacheName CACHE_NAME)
            && negb (String.eqb cacheName STATIC_CACHE_NAME)
            && negb (String.eqb cacheName DYNAMIC_CACHE_NAME));
    [|apply preserves_ret].
  intros w H. now apply I_delete.
Qed.

(** Every handler that reaches the caches keeps a property of the store that
    the store's own operations keep. *)
Lemma handlers_keep (P : Platform) (w : World) :
  I (caches w) ->
  (forall request, I (caches (exec (networkFirstStrategy P request) w)))
  /\ (forall request, I (caches (exec (cacheFirstStrategy P request) w)))
  /\ I (caches (run_pending P w))
  /\ I (caches (exec (updateCachedContent P) w))
  /\ I (caches (exec (cleanupOldCacheEntries P) w))
  /\ I (caches (exec (on_install P) w))
  /\ I (caches (exec on_activate w)).
Proof.
  intros H. repeat split.
  - intros request. now apply (keeps_networkFirstStrategy P request w).
  - intros request. now apply (keeps_cacheFirstStrategy P request w).
  - now apply keeps_run_pending.
  - now apply (keeps_updateCachedContent P w).
  - now apply (keeps_cleanupOldCacheEntries P w).
  - now apply (keeps_on_install P w).
  - now apply (keeps_on_activate w).
Qed.
End StoreInvariant.

Lemma distinct_keys_update (name : string) (f : Cache -> Cache) (cs : CacheStorage) :
  (forall c, NoDup (Cache_keys c) -> NoDup (Cache_keys (f c))) ->
  distinct_keys cs -> distinct_keys (storage_update name f cs).
Proof.
  intros Hf. unfold distinct_keys.
  induction cs as [|[n c] cs IH]; intros H; [constructor|].
  inversion H as [|? ? Hc Hcs]; subst. cbn [storage_update snd] in *.
  destruct (String.eqb n name); constructor; cbn [snd]; auto.
Qed.

Lemma distinct_keys_open (name : string) (cs : CacheStorage) :
  distinct_keys cs -> distinct_keys (storage_open name cs).
Proof.
  intros H. unfold storage_open. destruct (find_cache name cs); [exact H|].
  unfold distinct_keys. apply Forall_app. split; [exact H|].
  repeat constructor.
Qed.

Lemma distinct_keys_delete (name : string) (cs : CacheStorage) :
  distinct_keys cs -> distinct_keys (storage_delete name cs).
Proof.
  unfold distinct_keys, storage_delete. intros H.
  apply Forall_forall. intros nc Hin. apply filter_In in Hin.
  rewrite Forall_forall in H. now apply H.
Qed.

(** X12: no handler ever leaves two entries under one key in a namespace:
    from namespaces with distinct keys, both strategies, the background
    refresh, the periodic update, the sweep, installation and activation lead
    to namespaces with distinct keys. *)
Theorem handlers_keep_keys_distinct :
  forall (P : Platform) (w : World),
    distinct_keys (caches w) ->
    (forall request, distinct_keys (caches (exec (networkFirstStrategy P request) w)))
    /\ (forall request, distinct_keys (caches (exec (cacheFirstStrategy P request) w)))
    /\ distinct_keys (caches (run_pending P w))
    /\ distinct_keys (caches (exec (updateCachedContent P) w))
    /\ distinct_keys (caches (exec (cleanupOldCacheEntries P) w))
    /\ distinct_keys (caches (exec (on_install P) w))
    /\ distinct_keys (caches (exec on_activate w)).
Proof.
  intros P w. apply (handlers_keep distinct_keys).
  - intros cs. apply distinct_keys_open.
  - intros cs. apply distinct_keys_open.
  - intros name key r cs. apply distinct_keys_update. intros c. apply Cache_put_NoDup.
  - intros name key cs. apply distinct_keys_update. intros c. apply Cache_delete_NoDup.
  - intros name cs. apply distinct_keys_delete.
Qed.

Lemma handlers_keep_keys_distinct_witness :
  distinct_keys
    (caches (exec (updateCachedContent (sample_platform (serves shell_page) None 1000))
               mixed_world)).
Proof.
  apply (handlers_keep_keys_distinct (sample_platform (serves shell_page) None 1000)
           mixed_world).
  unfold distinct_keys. simpl.
  repeat constructor; simpl; intuition discriminate.
Defined.

Lemma storage_keys_update (name : string) (f : Cache -> Cache) (cs : CacheStorage) :
  storage_keys (storage_update name f cs) = storage_keys cs.
Proof.
  unfold storage_keys. induction cs as [|[n c] cs IH]; [reflexivity|].
  cbn [storage_update]. destruct (String.eqb n name); cbn [map fst]; now rewrite ?IH.
Qed.

Lemma only_current_open (name : string) (cs : CacheStorage) :
  is_current name = true ->
  only_current cs = true -> only_current (storage_open name cs) = true.
Proof.
  intros Hn H. unfold storage_open. destruct (find_cache name cs); [exact H|].
  unfold only_current, storage_keys in *. rewrite map_app, forallb_app, H.
  cbn. now rewrite Hn.
Qed.

Lemma only_current_delete (name : string) (cs : CacheStorage) :
  only_current cs = true -> only_current (storage_delete name cs) = true.
Proof.
  unfold only_current, storage_delete, storage_keys. intros H.
  apply forallb_forall. intros n Hin. apply in_map_iff in Hin.
  destruct Hin as [nc [<- Hin]]. apply filter_In in Hin. destruct Hin as [Hin _].
  rewrite forallb_forall in H. apply H. now apply in_map.
Qed.

(** X13: once only namespaces with a current name exist (as after
    activation), no handler brings another name into being: the worker only
    ever opens the static and the dynamic namespace. *)
Theorem handlers_create_only_current_namespaces :
  forall (P : Platform) (w : World),
    only_current (caches w) = true ->
    (forall request, only_current (caches (exec (networkFirstStrategy P request) w)) = true)
    /\ (forall request, only_current (caches (exec (cacheFirstStrategy P request) w)) = true)
    /\ only_current (caches (run_pending P w)) = true
    /\ only_current (caches (exec (updateCachedContent P) w)) = true
    /\ only_current (caches (exec (cleanupOldCacheEntries P) w)) = true
    /\ only_current (caches (exec (on_install P) w)) = true
    /\ only_current (caches (exec on_activate w)) = true.
Proof.
  intros P w. apply (handlers_keep (fun cs => only_current cs = true)).
  - intros cs. now apply only_current_open.
  - intros cs. now apply only_current_open.
  - intros name key r cs H. unfold only_current. now rewrite storage_keys_update.
  - intros name key cs H. unfold only_current. now rewrite storage_keys_update.
  - intros name cs. apply only_current_delete.
Qed.

Lemma handlers_create_only_current_namespaces_witness :
  only_current
    (caches (exec (networkFirstStrategy (sample_platform (serves shell_page) None 1000)
                     (html_request "/a.html")) shell_only_world))
  = true.
Proof.
  destruct (handlers_create_only_current_namespaces
              (sample_platform (serves shell_page) None 1000) shell_only_world)
    as [H _]; [reflexivity|].
  apply H.
Defined.

(** ** Periodic update *)

Lemma update_loop_run (P : Platform) (l : list string) (w : World) :
  for_of l
    (fun path =>
       try_catch
         (response <- fetch P (Request_of P path) ;;
          if ok response then
            cache <- caches_open DYNAMIC_CACHE_NAME ;;
            cache_put cache (Request_of P path) response
          else ret tt)
         (fun error => ret tt)) w
  = (Returned tt,
     {| caches := fold_left (refresh_step P) l (caches w);
        fetched := fetched w ++ map (Request_of P) l;
        pending := pending w; shown := shown w; posted := posted w;
        skipWaiting_calls := skipWaiting_calls w;
        clients_claimed := clients_claimed w |}).
Proof.
  revert w. induction l as [|path l IH]; intros w.
  - cbn [for_of fold_left map]. rewrite app_nil_r. now destruct w.
  - cbn [for_of]. unfold bind at 1. unfold try_catch at 1. unfold bind at 1.
    unfold fetch at 1. cbn [fold_left map]. unfold refresh_step at 2, refreshed.
    destruct (network P (Request_of P path)) as [r|].
    + destruct (ok r).
      * unfold caches_open, cache_put, modify_caches, bind, ret. cbn [fst snd].
        fold (@bind unit unit). rewrite IH. cbn [caches fetched pending shown posted
          skipWaiting_calls clients_claimed with_caches].
        now rewrite <- app_assoc.
      * unfold ret at 1. rewrite IH. cbn [caches fetched pending shown posted
          skipWaiting_calls clients_claimed]. now rewrite <- app_assoc.
    + unfold ret at 1. rewrite IH. cbn [caches fetched pending shown posted
        skipWaiting_calls clients_claimed]. now rewrite <- app_assoc.
Qed.

Lemma updateCachedContent_run (P : Platform) (w : World) :
  updateCachedContent P w
  = (Returned tt,
     {| caches := fold_left (refresh_step P) pagesToUpdate (caches w);
        fetched := fetched w ++ map (Request_of P) pagesToUpdate;
        pending := pending w;
        shown := shown w ++ [content_updated_notification];
        posted := posted w;
        skipWaiting_calls := skipWaiting_calls w;
        clients_claimed := clients_claimed w |}).
Proof.
  unfold updateCachedContent. unfold try_catch at 1. unfold bind at 1. cbv beta.
  rewrite update_loop_run. reflexivity.
Qed.

(** X14: [updateCachedContent] never throws, asks the network for each of
    the nine pages in order, and shows the notification that content was
    updated exactly once, whether or not any page could be fetched. *)
Theorem updateCachedContent_always_notifies :
  forall (P : Platform) (w : World),
    result (updateCachedContent P) w = Returned tt
    /\ shown (exec (updateCachedContent P) w)
       = shown w ++ [content_updated_notification]
    /\ fetched (exec (updateCachedContent P) w)
       = fetched w ++ map (Request_of P) pagesToUpdate
    /\ shown (exec (updateCachedContent (sample_platform offline None 0)) empty_world)
       = [content_updated_notification]
    /\ caches (exec (updateCachedContent (sample_platform offline None 0)) empty_world)
       = [].
Proof.
  intros P w. unfold result, exec. rewrite updateCachedContent_run.
  repeat split; reflexivity.
Qed.

Lemma entries_refresh_step (P : Platform) (cs : CacheStorage) (path : string) :
  entries DYNAMIC_CACHE_NAME (refresh_step P cs path)
  = refresh_entry P (entries DYNAMIC_CACHE_NAME cs) path.
Proof.
  unfold refresh_step, refresh_entry. destruct (refreshed P path); [|reflexivity].
  rewrite entries_update_same by apply find_cache_open_same.
  now rewrite entries_open.
Qed.

Lemma entries_refresh_all (P : Platform) (l : list string) (cs : CacheStorage) :
  entries DYNAMIC_CACHE_NAME (fold_left (refresh_step P) l cs)
  = fold_left (refresh_entry P) l (entries DYNAMIC_CACHE_NAME cs).
Proof.
  revert cs. induction l as [|path l IH]; intros cs; [reflexivity|].
  cbn [fold_left]. now rewrite IH, entries_refresh_step.
Qed.

Lemma refresh_untouched (P : Platform) (key : string) (l : list string) (c : Cache) :
  mem_string key (map (fun path => url (Request_of P path)) l) = false ->
  Cache_match key (fold_left (refresh_entry P) l c) = Cache_match key c.
Proof.
  revert c. induction l as [|path l IH]; intros c H; [reflexivity|].
  cbn [map mem_string existsb] in H. apply orb_false_iff in H. destruct H as [Hk Hl].
  cbn [fold_left]. rewrite IH by exact Hl.
  unfold refresh_entry. destruct (refreshed P path); [|reflexivity].
  apply Cache_match_put_other. intros E. rewrite E, string_eqb_refl in Hk.
  discriminate.
Qed.

Lemma not_in_urls (P : Platform) (path : string) (l : list string) :
  ~ In path l ->
  mem_string (url (Request_of P path)) (map (fun p => url (Request_of P p)) l) = false.
Proof.
  intros Hn. apply not_true_is_false. intros H. unfold mem_string in H.
  apply existsb_exists in H. destruct H as [x [Hin Heq]].
  apply String.eqb_eq in Heq. apply in_map_iff in Hin.
  destruct Hin as [p [Hp Hin]]. subst x. cbn [Request_of url] in Heq.
  apply append_prefix_injective in Heq. now subst p.
Qed.

Lemma refresh_stored (P : Platform) (path : string) (r : Response) (l : list string)
    (c : Cache) :
  NoDup l -> In path l -> refreshed P path = Some r ->
  Cache_match (url (Request_of P path)) (fold_left (refresh_entry P) l c) = Some r.
Proof.
  revert c. induction l as [|p l IH]; intros c Hnd Hin Hr; [contradiction|].
  inversion Hnd as [|? ? Hnin Hnd']; subst. cbn [fold_left].
  destruct (string_dec p path) as [->|Hne].
  - rewrite refresh_untouched by now apply not_in_urls.
    unfold refresh_entry. rewrite Hr. apply Cache_match_put_same.
  - destruct Hin as [Hin|Hin]; [contradiction|]. now apply IH.
Qed.

Lemma pagesToUpdate_NoDup : NoDup pagesToUpdate.
Proof.
  unfold pagesToUpdate.
  repeat (constructor; [simpl; intuition discriminate|]). constructor.
Qed.

(** X15: after [updateCachedContent], every page of its list whose fetch
    answered with a 2xx status has that response as its entry in the dynamic
    namespace, whatever happened to the other pages. *)
Theorem updateCachedContent_stores_ok_pages :
  forall (P : Platform) (w : World) (path : string) (r : Response),
    In path pagesToUpdate ->
    network P (Request_of P path) = Some r ->
    ok r = true ->
    Cache_match (origin P ++ path)%string
      (entries DYNAMIC_CACHE_NAME (caches (exec (updateCachedContent P) w)))
    = Some r.
Proof.
  intros P w path r Hin Hn Hok. unfold exec. rewrite updateCachedContent_run.
  cbn [snd caches]. rewrite entries_refresh_all.
  apply (refresh_stored P path r pagesToUpdate _ pagesToUpdate_NoDup Hin).
  unfold refreshed. now rewrite Hn, Hok.
Qed.

Lemma updateCachedContent_stores_ok_pages_witness :
  Cache_match (sample_origin ++ "/index.html")%string
    (entries DYNAMIC_CACHE_NAME
       (caches (exec (updateCachedContent (sample_platform serves_only_index None 1000))
                  mixed_world)))
  = Some shell_page.
Proof.
  apply (updateCachedContent_stores_ok_pages
           (sample_platform serves_only_index None 1000) mixed_world
           "/index.html" shell_page).
  - simpl. tauto.
  - reflexivity.
  - reflexivity.
Defined.

Lemma refresh_entry_keeps (P : Platform) (key : string) (r0 : Response) (c : Cache)
    (path : string) :
  Cache_match key c = Some r0 ->
  exists r1, Cache_match key (refresh_entry P c path) = Some r1.
Proof.
  intros H. unfold refresh_entry. destruct (refreshed P path) as [r|]; [|now exists r0].
  destruct (string_dec (url (Request_of P path)) key) as [<-|Hne].
  - exists r. apply Cache_match_put_same.
  - exists r0. now rewrite Cache_match_put_other.
Qed.

(** X16: [updateCachedContent] writes past the quota guard and evicts
    nothing: every key of the dynamic namespace is still there afterwards,
    with its response unchanged when the key is not the URL of a listed
    page. *)
Theorem updateCachedContent_never_evicts :
  forall (P : Platform) (w : World) (key : string) (r0 : Response),
    Cache_match key (entries DYNAMIC_CACHE_NAME (caches w)) = Some r0 ->
    exists r1,
      Cache_match key
        (entries DYNAMIC_CACHE_NAME (caches (exec (updateCachedContent P) w)))
      = Some r1
      /\ (mem_string key (page_urls P) = false -> r1 = r0).
Proof.
  intros P w key r0 H. unfold exec. rewrite updateCachedContent_run.
  cbn [snd caches]. rewrite entries_refresh_all.
  assert (Hkeep : forall l c r, Cache_match key c = Some r ->
            exists r1, Cache_match key (fold_left (refresh_entry P) l c) = Some r1).
  { induction l as [|path l IH]; intros c r Hc; [now exists r|].
    cbn [fold_left]. destruct (refresh_entry_keeps P key r c path Hc) as [r' Hr'].
    now apply (IH _ r'). }
  destruct (Hkeep pagesToUpdate _ r0 H) as [r1 Hr1]. exists r1. split; [exact Hr1|].
  intros Hmem. unfold page_urls in Hmem.
  rewrite (refresh_untouched P key pagesToUpdate _ Hmem) in Hr1. congruence.
Qed.

Lemma updateCachedContent_never_evicts_witness :
  exists r1,
    Cache_match (sample_origin ++ "/old.png")%string
      (entries DYNAMIC_CACHE_NAME
         (caches (exec (updateCachedContent
                          (sample_platform (serves shell_page) (Some nearly_full) 1000))
                    mixed_world)))
    = Some r1
    /\ (mem_string (sample_origin ++ "/old.png")%string
          (page_urls (sample_platform (serves shell_page) (Some nearly_full) 1000))
        = false -> r1 = page 200 (Some epoch_date) "old").
Proof.
  apply (updateCachedContent_never_evicts
           (sample_platform (serves shell_page) (Some nearly_full) 1000) mixed_world
           (sample_origin ++ "/old.png")%string (page 200 (Some epoch_date) "old")).
  reflexivity.
Defined.

(** ** The staleness sweep *)

Lemma cleanup_as_sweep (P : Platform) (w : World) :
  cleanupOldCacheEntries P w
  = for_of (Cache_keys (entries DYNAMIC_CACHE_NAME (caches w))) (sweep_entry P)
      (with_caches w (storage_open DYNAMIC_CACHE_NAME (caches w))).
Proof. rewrite cleanup_run. reflexivity. Qed.

Lemma sweep_entry_run (P : Platform) (key : string) (w : World) :
  find_cache DYNAMIC_CACHE_NAME (caches w) <> None ->
  fst (sweep_entry P key w) = Returned tt
  /\ entries DYNAMIC_CACHE_NAME (caches (snd (sweep_entry P key w)))
     = sweep_key P (entries DYNAMIC_CACHE_NAME (caches w)) key
  /\ find_cache DYNAMIC_CACHE_NAME (caches (snd (sweep_entry P key w))) <> None.
Proof.
  intros Hf. unfold sweep_entry, sweep_key, sweep_stale, bind, cache_match.
  cbn [fst snd].
  destruct (Cache_match key (entries DYNAMIC_CACHE_NAME (caches w))) as [r|];
    [|now repeat split].
  destruct (Headers_get "date" (headers r)) as [dateHeader|]; [|now repeat split].
  destruct (negb (String.eqb dateHeader EmptyString)); [|now repeat split].
  cbn [andb].
  destruct (age_exceeds (now P) (Date_parse P dateHeader) MAX_AGE_MS);
    [|now repeat split].
  unfold cache_delete, modify_caches. cbn [fst snd with_caches caches].
  repeat split.
  - now apply entries_update_same.
  - rewrite find_cache_update, string_eqb_refl.
    destruct (find_cache DYNAMIC_CACHE_NAME (caches w)); [discriminate|contradiction].
Qed.

Lemma sweep_loop_run (P : Platform) (keys : list string) (w : World) :
  find_cache DYNAMIC_CACHE_NAME (caches w) <> None ->
  fst (for_of keys (sweep_entry P) w) = Returned tt
  /\ entries DYNAMIC_CACHE_NAME (caches (snd (for_of keys (sweep_entry P) w)))
     = fold_left (sweep_key P) keys (entries DYNAMIC_CACHE_NAME (caches w)).
Proof.
  revert w. induction keys as [|key keys IH]; intros w Hf; [now split|].
  cbn [for_of fold_left]. unfold bind.
  destruct (sweep_entry_run P key w Hf) as [Hr [He Hf']].
  destruct (sweep_entry P key w) as [[[]|e] w1]; cbn [fst snd] in *; [|discriminate].
  rewrite <- He. now apply IH.
Qed.

Lemma Cache_match_absent (key : string) (c : Cache) :
  ~ In key (Cache_keys c) -> Cache_match key c = None.
Proof.
  induction c as [|[k r] c IH]; intros Hn; [reflexivity|].
  cbn [Cache_match]. destruct (String.eqb k key) eqn:E.
  - apply String.eqb_eq in E. subst k. exfalso. apply Hn. now left.
  - apply IH. intros Hin. apply Hn. now right.
Qed.

(** With distinct keys, the sweep over the keys of a namespace keeps exactly
    the entries its test spares, in their order. *)
Lemma sweep_filter (P : Platform) (todo done : Cache) :
  NoDup (Cache_keys (done ++ todo)) ->
  fold_left (sweep_key P) (Cache_keys todo) (done ++ todo)
  = done ++ filter (fun e => negb (sweep_stale P (snd e))) todo.
Proof.
  revert done. induction todo as [|[k r] todo IH]; intros done Hnd; [reflexivity|].
  cbn [Cache_keys map fst fold_left filter snd].
  assert (Hsplit : ~ In k (Cache_keys done) /\ ~ In k (Cache_keys todo)
                   /\ NoDup (Cache_keys (done ++ todo))).
  { unfold Cache_keys in *. rewrite map_app in *. cbn [map fst] in Hnd.
    pose proof (NoDup_remove_1 _ _ _ Hnd) as H1.
    pose proof (NoDup_remove_2 _ _ _ Hnd) as H2.
    repeat split; [| |exact H1]; intros Hin; apply H2, in_or_app; tauto. }
  destruct Hsplit as [Hd [Ht Hnd']].
  assert (Hm : Cache_match k (done ++ (k, r) :: todo) = Some r).
  { rewrite Cache_match_app, (Cache_match_absent k done Hd).
    cbn [Cache_match]. now rewrite string_eqb_refl. }
  unfold sweep_key at 2. rewrite Hm.
  destruct (sweep_stale P r); cbn [negb].
  - replace (Cache_delete k (done ++ (k, r) :: todo)) with (done ++ todo).
    + now apply IH.
    + unfold Cache_delete. rewrite filter_app. cbn [filter fst].
      rewrite string_eqb_refl. cbn [negb].
      fold (Cache_delete k done). fold (Cache_delete k todo).
      now rewrite !Cache_delete_absent.
  - replace (done ++ (k, r) :: todo) with ((done ++ [(k, r)]) ++ todo)
      by now rewrite <- app_assoc.
    rewrite IH.
    + now rewrite <- app_assoc.
    + now rewrite <- app_assoc.
Qed.

(** X17: over a dynamic namespace with distinct keys, [cleanupOldCacheEntries]
    returns normally and leaves exactly the entries whose response has no
    [date] header, an empty or unparseable one, or a date at most seven days
    old, in their order. *)
Theorem cleanup_deletes_exactly_dated_stale_entries :
  forall (P : Platform) (w : World),
    NoDup (Cache_keys (entries DYNAMIC_CACHE_NAME (caches w))) ->
    result (cleanupOldCacheEntries P) w = Returned tt
    /\ entries DYNAMIC_CACHE_NAME (caches (exec (cleanupOldCacheEntries P) w))
       = filter (fun e => negb (sweep_stale P (snd e)))
           (entries DYNAMIC_CACHE_NAME (caches w)).
Proof.
  intros P w Hnd. unfold result, exec. rewrite cleanup_as_sweep.
  destruct (sweep_loop_run P (Cache_keys (entries DYNAMIC_CACHE_NAME (caches w)))
              (with_caches w (storage_open DYNAMIC_CACHE_NAME (caches w))))
    as [Hr He].
  - cbn [with_caches caches]. apply find_cache_open_same.
  - split; [exact Hr|]. rewrite He. cbn [with_caches caches]. rewrite entries_open.
    apply (sweep_filter P (entries DYNAMIC_CACHE_NAME (caches w)) []). exact Hnd.
Qed.

Lemma cleanup_deletes_exactly_dated_stale_entries_witness :
  entries DYNAMIC_CACHE_NAME
    (caches (exec (cleanupOldCacheEntries (sample_platform offline None year_2026))
               undated_world))
  = [ ((sample_origin ++ "/undated.png")%string, undated_page);
      ((sample_origin ++ "/garbled.png")%string, garbled_page) ].
Proof.
  destruct (cleanup_deletes_exactly_dated_stale_entries
              (sample_platform offline None year_2026) undated_world) as [_ H].
  - vm_compute. repeat constructor; simpl; intuition discriminate.
  - rewrite H. reflexivity.
Defined.

(** ** Installation: all or nothing *)

Lemma fetch_all_ok_fails (P : Platform) (path : string) (l : list string) :
  In path l -> asset_ok P path = false ->
  fetch_all_ok P (map (Request_of P) l) = None.
Proof.
  intros Hin Hbad. induction l as [|p l IH]; [contradiction|].
  cbn [map fetch_all_ok]. unfold asset_ok in Hbad.
  destruct (string_dec p path) as [->|Hne].
  - destruct (network P (Request_of P path)) as [r|]; [|reflexivity].
    now rewrite Hbad.
  - destruct Hin as [Hin|Hin]; [contradiction|].
    destruct (network P (Request_of P p)) as [r|]; [|reflexivity].
    destruct (ok r); [|reflexivity]. now rewrite IH.
Qed.

Lemma fetch_all_ok_succeeds (P : Platform) (l : list string) :
  forallb (asset_ok P) l = true ->
  exists rs, fetch_all_ok P (map (Request_of P) l) = Some rs.
Proof.
  induction l as [|p l IH]; intros H; [now exists []|].
  cbn [forallb] in H. apply andb_true_iff in H. destruct H as [Hp Hl].
  destruct (IH Hl) as [rs Hrs]. cbn [map fetch_all_ok]. unfold asset_ok in Hp.
  destruct (network P (Request_of P p)) as [r|]; [|discriminate].
  rewrite Hp, Hrs. now exists (r :: rs).
Qed.

Lemma fetch_all_ok_pairs (P : Platform) (l : list string) (rs : list Response)
    (path : string) (r : Response) :
  fetch_all_ok P (map (Request_of P) l) = Some rs ->
  In path l -> network P (Request_of P path) = Some r ->
  In (path, r) (combine l rs).
Proof.
  revert rs. induction l as [|p l IH]; intros rs Hf Hin Hn; [contradiction|].
  cbn [map fetch_all_ok] in Hf.
  destruct (network P (Request_of P p)) as [r0|] eqn:Hp; [|discriminate].
  destruct (ok r0); [|discriminate].
  destruct (fetch_all_ok P (map (Request_of P) l)) as [rs'|]; [|discriminate].
  injection Hf as <-. cbn [combine].
  destruct (string_dec p path) as [->|Hne].
  - left. congruence.
  - destruct Hin as [Hin|Hin]; [contradiction|]. right. now apply IH.
Qed.

Lemma on_install_unfold (P : Platform) (w : World) :
  on_install P w
  = (let (o, w') :=
       map_await (fetch_ok P) (map (Request_of P) STATIC_ASSETS)
         (with_caches (after_skipWaiting w)
            (storage_open STATIC_CACHE_NAME (caches w))) in
     match o with
     | Returned responses =>
         for_of (combine STATIC_ASSETS responses)
           (fun pr => cache_put STATIC_CACHE_NAME (Request_of P (fst pr)) (snd pr)) w'
     | Thrown e => (Thrown e, w')
     end).
Proof. reflexivity. Qed.

Lemma on_install_result (P : Platform) (w : World) :
  match fetch_all_ok P (map (Request_of P) STATIC_ASSETS) with
  | Some _ => result (on_install P) w = Returned tt
  | None => exists e, result (on_install P) w = Thrown e
  end.
Proof.
  unfold result. rewrite on_install_unfold.
  match goal with |- context [map_await (fetch_ok P) ?l ?w0] =>
    destruct (map_await_fetch_ok P l w0) as [_ Hr];
    destruct (map_await (fetch_ok P) l w0) as [[rs|e] w1] end;
  cbn [fst snd] in *;
  destruct (fetch_all_ok P (map (Request_of P) STATIC_ASSETS)) as [rs'|].
  - now rewrite for_of_put_run.
  - destruct Hr as [e He]. discriminate.
  - discriminate.
  - now exists e.
Qed.

Lemma on_install_skips_waiting (P : Platform) (w : World) :
  skipWaiting_calls (exec (on_install P) w) = S (skipWaiting_calls w).
Proof.
  set (K := fun w' : World => skipWaiting_calls w' = S (skipWaiting_calls w)).
  assert (Hrest : preserves K
            (cache <- caches_open STATIC_CACHE_NAME ;;
             cache_addAll P cache STATIC_ASSETS)).
  { apply preserves_bind; [intros w0 H; exact H|].
    intros cache. unfold cache_addAll. apply preserves_bind.
    - generalize (map (Request_of P) STATIC_ASSETS).
      induction l as [|q l IH]; [apply preserves_ret|].
      cbn [map_await]. apply preserves_bind.
      + unfold fetch_ok. apply preserves_bind.
        * intros w0 H. unfold exec, fetch. destruct (network P q); exact H.
        * intros r. destruct (ok r); [apply preserves_ret|apply preserves_throw].
      + intros y. apply preserves_bind; [exact IH|]. intros ys. apply preserves_ret.
    - intros responses. apply preserves_for_of. intros pr _ w0 H. exact H. }
  apply (Hrest (after_skipWaiting w)). reflexivity.
Qed.

(** X18: when one asset of the list cannot be fetched or is answered with a
    status outside 2xx, [install] rejects and no entry of any namespace is
    added, replaced or removed; [self.skipWaiting()] has been called all the
    same. *)
Theorem install_fails_as_a_whole :
  forall (P : Platform) (w : World) (path : string),
    In path STATIC_ASSETS ->
    asset_ok P path = false ->
    (exists e, result (on_install P) w = Thrown e)
    /\ (forall name, entries name (caches (exec (on_install P) w))
                     = entries name (caches w))
    /\ skipWaiting_calls (exec (on_install P) w) = S (skipWaiting_calls w).
Proof.
  intros P w path Hin Hbad.
  pose proof (fetch_all_ok_fails P path STATIC_ASSETS Hin Hbad) as Hnone.
  pose proof (on_install_result P w) as Hres.
  pose proof (on_install_caches P w) as Hc.
  rewrite Hnone in Hres, Hc. repeat split.
  - exact Hres.
  - intros name. rewrite Hc. apply entries_open.
  - apply on_install_skips_waiting.
Qed.

Lemma install_fails_as_a_whole_witness :
  (exists e, result (on_install (sample_platform lacks_manifest None 1000))
               shell_only_world = Thrown e)
  /\ entries STATIC_CACHE_NAME
       (caches (exec (on_install (sample_platform lacks_manifest None 1000))
                  shell_only_world))
     = [ ((sample_origin ++ "/")%string, shell_page) ].
Proof.
  destruct (install_fails_as_a_whole (sample_platform lacks_manifest None 1000)
              shell_only_world "/manifest.json") as [He [Hent _]].
  - simpl. tauto.
  - reflexivity.
  - split; [exact He|]. rewrite Hent. reflexivity.
Defined.

Lemma Cache_match_filtered_out (key : string) (keys : list string) (c : Cache) :
  mem_string key keys = true ->
  Cache_match key (filter (fun e => negb (mem_string (fst e) keys)) c) = None.
Proof.
  intros Hk. induction c as [|[k r] c IH]; [reflexivity|].
  cbn [filter fst]. destruct (mem_string k keys) eqn:E; cbn [negb]; [exact IH|].
  cbn [Cache_match]. destruct (String.eqb k key) eqn:Ek; [|exact IH].
  apply String.eqb_eq in Ek. subst k. congruence.
Qed.

Lemma Cache_match_In (key : string) (r : Response) (c : Cache) :
  NoDup (Cache_keys c) -> In (key, r) c -> Cache_match key c = Some r.
Proof.
  induction c as [|[k0 r0] c IH]; intros Hnd Hin; [contradiction|].
  inversion Hnd as [|? ? Hnin Hnd']; subst. cbn [Cache_match].
  destruct Hin as [Heq|Hin].
  - injection Heq as -> ->. now rewrite string_eqb_refl.
  - destruct (String.eqb k0 key) eqn:E; [|now apply IH].
    apply String.eqb_eq in E. subst k0. exfalso. apply Hnin.
    unfold Cache_keys. change key with (fst (key, r)). now apply in_map.
Qed.

(** X19: when every asset of the list is fetched with a 2xx status,
    [install] resolves and the static namespace holds, under the URL of each
    asset, the response fetched for it. *)
Theorem install_stores_every_asset :
  forall (P : Platform) (w : World),
    forallb (asset_ok P) STATIC_ASSETS = true ->
    result (on_install P) w = Returned tt
    /\ (forall path r,
           In path STATIC_ASSETS ->
           network P (Request_of P path) = Some r ->
           Cache_match (origin P ++ path)%string
             (entries STATIC_CACHE_NAME (caches (exec (on_install P) w)))
           = Some r).
Proof.
  intros P w Hall.
  destruct (fetch_all_ok_succeeds P STATIC_ASSETS Hall) as [rs Hrs].
  pose proof (on_install_result P w) as Hres.
  pose proof (on_install_caches P w) as Hc.
  rewrite Hrs in Hres, Hc. split; [exact Hres|].
  intros path r Hin Hn. rewrite Hc.
  rewrite entries_update_same by apply find_cache_open_same.
  pose proof (batch_keys_NoDup P STATIC_ASSETS rs STATIC_ASSETS_NoDup) as Hnd.
  rewrite (put_all_closed_form P _ _ Hnd).
  pose proof (fetch_all_ok_pairs P STATIC_ASSETS rs path r Hrs Hin Hn) as Hpair.
  assert (Hmem : In (url (Request_of P path), r)
                   (map (fun pr => (url (Request_of P (fst pr)), snd pr))
                      (combine STATIC_ASSETS rs))).
  { apply in_map_iff. now exists (path, r). }
  rewrite Cache_match_app, Cache_match_filtered_out.
  - apply Cache_match_In; [|exact Hmem].
    unfold Cache_keys. rewrite map_map. exact Hnd.
  - apply mem_string_In. unfold batch_keys. apply in_map_iff. now exists (path, r).
Qed.

Lemma install_stores_every_asset_witness :
  Cache_match (sample_origin ++ "/manifest.json")%string
    (entries STATIC_CACHE_NAME
       (caches (exec (on_install (sample_platform (serves shell_page) None 1000))
                  shell_only_world)))
  = Some shell_page.
Proof.
  destruct (install_stores_every_asset (sample_platform (serves shell_page) None 1000)
              shell_only_world) as [_ H].
  - reflexivity.
  - apply (H "/manifest.json" shell_page); [simpl; tauto|reflexivity].
Defined.

(** ** Messages *)

(** X20: any message whose [type] is [GET_VERSION] is answered once, on the
    first port only, with the version reply; when the event carries no port
    the handler throws and nothing is posted.  [skipWaiting] is not called. *)
Theorem get_version_replies_on_first_port :
  forall (data : JSValue) (event_ports : list nat) (w : World),
    message_type_is data "GET_VERSION" = true ->
    on_message {| msg_data := data; ports := event_ports |} w
    = match event_ports with
      | [] => (Thrown (TypeError "Cannot read properties of undefined"), w)
      | port :: _ => (Returned tt, after_post w port version_reply)
      end.
Proof.
  intros data event_ports w H. unfold message_type_is in H.
  apply andb_true_iff in H. destruct H as [Ht Hk].
  assert (Hskip : strict_eq_str (member data "type") "SKIP_WAITING" = false).
  { destruct (member data "type"); try discriminate. cbn [strict_eq_str] in *.
    apply String.eqb_eq in Hk. now subst s. }
  unfold on_message. cbn [msg_data ports]. rewrite Ht, Hk, Hskip. cbn [andb].
  unfold bind, ret, post_to_first_port, throw.
  destruct event_ports as [|port rest]; [reflexivity|]. cbn. now destruct w.
Qed.

Lemma get_version_replies_on_first_port_witness :
  on_message {| msg_data := JObj [("id", JNum 7); ("type", JStr "GET_VERSION")];
                ports := [] |} empty_world
  = (Thrown (TypeError "Cannot read properties of undefined"), empty_world).
Proof.
  apply (get_version_replies_on_first_port
           (JObj [("id", JNum 7); ("type", JStr "GET_VERSION")]) [] empty_world).
  reflexivity.
Defined.

(** X21: a message that is not of type [GET_VERSION] is never answered: it
    makes the worker call [skipWaiting] once when its type is [SKIP_WAITING]
    and changes nothing otherwise, whatever ports it carries. *)
Theorem other_messages_get_no_reply :
  forall (event : MessageEvent) (w : World),
    message_type_is (msg_data event) "GET_VERSION" = false ->
    on_message event w
    = (Returned tt,
       if message_type_is (msg_data event) "SKIP_WAITING"
       then after_skipWaiting w
       else w).
Proof.
  intros event w H. unfold on_message, message_type_is in *. rewrite H.
  unfold bind, ret, skipWaiting.
  destruct (truthy (msg_data event)
            && strict_eq_str (member (msg_data event) "type") "SKIP_WAITING");
    reflexivity.
Qed.

Lemma other_messages_get_no_reply_witness :
  on_message {| msg_data := JNull; ports := [1%nat] |} empty_world
  = (Returned tt, empty_world).
Proof.
  apply (other_messages_get_no_reply {| msg_data := JNull; ports := [1%nat] |}
           empty_world).
  reflexivity.
Defined.

(** ** Push payloads *)

(** X22: the merge of a JSON object payload is shallow and key by key: each
    property of the notification is the payload's (last) value for that key
    when the payload has the key, and the default otherwise. *)
Theorem push_payload_overrides_key_by_key :
  forall (P : Platform) (raw : string) (props : JSObject) (key : string),
    get_prop key
      (push_notificationData P (Some (mkPushData raw (Some (JObj props)))))
    = match last_binding key props with
      | Some v => v
      | None => get_prop key (default_notificationData P)
      end.
Proof.
  intros P raw props key. cbn [push_notificationData json].
  apply get_prop_spread.
Qed.

Lemma index_key_not_a_field (i : nat) (key : string) :
  mem_string key notification_fields = true ->
  String.eqb (index_key i) key = false.
Proof.
  intros H. unfold mem_string in H. apply existsb_exists in H.
  destruct H as [x [Hin Heq]]. apply String.eqb_eq in Heq. subst x.
  unfold index_key. cbn in Hin.
  destruct Hin as [<-|[<-|[<-|[<-|[<-|[<-|[]]]]]]];
    destruct (Nat.to_uint i); reflexivity.
Qed.

Lemma get_prop_indexed {A} (f : A -> JSValue) (key : string) (l : list A) :
  mem_string key notification_fields = true ->
  forall (i : nat) (o : JSObject),
    get_prop key
      (fold_left (fun acc kv => set_prop (fst kv) (snd kv) acc) (indexed f i l) o)
    = get_prop key o.
Proof.
  intros Hk. induction l as [|x l IH]; intros i o; [reflexivity|].
  cbn [indexed fold_left fst snd]. rewrite IH, get_prop_set_prop.
  now rewrite (index_key_not_a_field i key Hk).
Qed.

(** X23: a payload that parses as JSON without being an object (a string, a
    number, a boolean, null, an array) changes none of the six notification
    fields: the notification shown is the default one, and the payload text
    is not used as body. *)
Theorem push_non_object_json_keeps_defaults :
  forall (P : Platform) (raw : string) (v : JSValue) (key : string),
    is_object v = false ->
    mem_string key notification_fields = true ->
    get_prop key (push_notificationData P (Some (mkPushData raw (Some v))))
    = get_prop key (default_notificationData P).
Proof.
  intros P raw v key Hv Hk. cbn [push_notificationData json]. unfold spread.
  destruct v; try discriminate; try reflexivity; cbn [own_props].
  - now apply get_prop_indexed.
  - now apply get_prop_indexed.
Qed.

Lemma push_non_object_json_keeps_defaults_witness :
  get_prop "body"
    (push_notificationData (sample_platform offline None 1000)
       (Some (mkPushData "hello" (Some (JStr "hello")))))
  = JStr "New tests and updates available!".
Proof.
  rewrite (push_non_object_json_keeps_defaults (sample_platform offline None 1000)
             "hello" (JStr "hello") "body"); reflexivity.
Defined.

(** ** Notification clicks *)

Lemma first_focusable_none (clientList : list WindowClient) (target : JSValue) :
  forallb (fun client =>
             negb (strict_eq_str target (client_url client) && can_focus client))
    clientList = true ->
  first_focusable clientList target = None.
Proof.
  induction clientList as [|client rest IH]; intros H; [reflexivity|].
  cbn [forallb] in H. apply andb_true_iff in H. destruct H as [Hc Hr].
  cbn [first_focusable]. apply negb_true_iff in Hc. rewrite Hc. now apply IH.
Qed.

(** X24: a click closes the notification and focuses the first listed page
    whose URL is exactly the target and which can be focused, passing over
    the pages before it and ignoring the ones after. *)
Theorem notificationclick_focuses_first_match :
  forall (data : JSValue) (before after : list WindowClient) (client : WindowClient)
         (openWindow_exists : bool),
    forallb (fun c => negb (strict_eq_str (urlToOpen data) (client_url c) && can_focus c))
      before = true ->
    strict_eq_str (urlToOpen data) (client_url client) && can_focus client = true ->
    on_notificationclick data (before ++ client :: after) openWindow_exists
    = {| notification_closed := true; action := FocusClient client |}.
Proof.
  intros data before after client openWindow_exists Hb Hc.
  unfold on_notificationclick. f_equal.
  induction before as [|c before IH]; cbn [app first_focusable].
  - now rewrite Hc.
  - cbn [forallb] in Hb. apply andb_true_iff in Hb. destruct Hb as [Hh Ht].
    apply negb_true_iff in Hh. rewrite Hh. now apply IH.
Qed.

Lemma notificationclick_focuses_first_match_witness :
  on_notificationclick
    (JObj [("url", JStr (sample_origin ++ "/Tests_7th.html"))]) open_pages true
  = {| notification_closed := true;
       action := FocusClient (mkClient (sample_origin ++ "/Tests_7th.html") true) |}.
Proof.
  apply (notificationclick_focuses_first_match
           (JObj [("url", JStr (sample_origin ++ "/Tests_7th.html"))])
           [ mkClient (sample_origin ++ "/index.html") true ]
           [ mkClient (sample_origin ++ "/Tests_7th.html") true ]
           (mkClient (sample_origin ++ "/Tests_7th.html") true) true); reflexivity.
Defined.

(** X25: when no listed page has exactly the target as its URL (or none of
    those can be focused), a click opens a window at the target if
    [clients.openWindow] exists and does nothing more otherwise; the target
    is [/] when the notification carries no data or no [url]. *)
Theorem notificationclick_opens_window_without_match :
  forall (data : JSValue) (clientList : list WindowClient) (openWindow_exists : bool),
    forallb (fun c => negb (strict_eq_str (urlToOpen data) (client_url c) && can_focus c))
      clientList = true ->
    on_notificationclick data clientList openWindow_exists
    = {| notification_closed := true;
         action := if openWindow_exists then OpenWindow (urlToOpen data) else NoAction |}
    /\ urlToOpen JUndefined = JStr "/"
    /\ urlToOpen JNull = JStr "/"
    /\ urlToOpen (JObj []) = JStr "/".
Proof.
  intros data clientList openWindow_exists H. repeat split.
  unfold on_notificationclick. now rewrite (first_focusable_none _ _ H).
Qed.

Lemma notificationclick_opens_window_without_match_witness :
  action (on_notificationclick
            (get_prop "data" (default_notificationData (sample_platform offline None 1000)))
            open_pages true)
  = OpenWindow (JStr "/").
Proof.
  destruct (notificationclick_opens_window_without_match
              (get_prop "data"
                 (default_notificationData (sample_platform offline None 1000)))
              open_pages true) as [H _]; [reflexivity|].
  now rewrite H.
Defined.

(** ** Fallback order and immediacy *)

(** X26: with the network down, [networkFirstStrategy] answers with the
    request's own cache entry when there is one, for documents too (the root
    page and the offline response come after), and writes nothing. *)
Theorem network_first_offline_prefers_own_entry :
  forall (P : Platform) (request : Request) (w : World) (cached : Response),
    network P request = None ->
    storage_match (url request) (caches w) = Some cached ->
    networkFirstStrategy P request w = (Returned (Some cached), log_fetch w request)
    /\ caches (exec (networkFirstStrategy P request) w) = caches w.
Proof.
  intros P request w cached Hn Hm. unfold exec.
  rewrite (network_first_offline P request w Hn), Hm. now split.
Qed.

Lemma network_first_offline_prefers_own_entry_witness :
  result (networkFirstStrategy (sample_platform offline None 1000) (html_request "/"))
    shell_only_world
  = Returned (Some shell_page).
Proof.
  unfold result.
  destruct (network_first_offline_prefers_own_entry (sample_platform offline None 1000)
              (html_request "/") shell_only_world shell_page) as [H _];
    [reflexivity|reflexivity|].
  now rewrite H.
Defined.

(** X27: on any cache hit, dated or not, fresh or stale, [cacheFirstStrategy]
    returns the stored response itself without consuming a network result and
    without changing any namespace; at most a background task is started. *)
Theorem cache_first_hit_is_immediate :
  forall (P : Platform) (request : Request) (w : World) (cached : Response),
    storage_match (url request) (caches w) = Some cached ->
    result (cacheFirstStrategy P request) w = Returned (Some cached)
    /\ caches (exec (cacheFirstStrategy P request) w) = caches w
    /\ fetched (exec (cacheFirstStrategy P request) w) = fetched w
    /\ (pending (exec (cacheFirstStrategy P request) w) = pending w
        \/ pending (exec (cacheFirstStrategy P request) w) = pending w ++ [request]).
Proof.
  intros P request w cached Hm. unfold result, exec.
  rewrite (cache_first_hit P request w cached Hm). cbn [fst snd].
  destruct (age_exceeds (now P) (new_Date P (Headers_get "date" (headers cached)))
              MAX_AGE_MS); repeat split; auto.
Qed.

Lemma cache_first_hit_is_immediate_witness :
  fetched (exec (cacheFirstStrategy (sample_platform (serves logo) None year_2026)
                   (asset_request "/old.png")) mixed_world)
  = [].
Proof.
  destruct (cache_first_hit_is_immediate (sample_platform (serves logo) None year_2026)
              (asset_request "/old.png") mixed_world
              (page 200 (Some epoch_date) "old")) as [_ [_ [H _]]];
    [reflexivity|exact H].
Defined.

(** ** Installed pages are available offline *)

Lemma storage_match_update_fresh (name key : string) (r : Response)
    (f : Cache -> Cache) (cs : CacheStorage) :
  storage_match key cs = None ->
  find_cache name cs <> None ->
  (forall c, Cache_match key (f c) = Some r) ->
  storage_match key (storage_update name f cs) = Some r.
Proof.
  intros Hm Hf Hr. induction cs as [|[n c] cs IH]; [now contradiction Hf|].
  cbn [storage_match] in Hm. cbn [storage_update find_cache] in *.
  destruct (Cache_match key c) eqn:Ec; [discriminate|].
  destruct (String.eqb n name) eqn:E; cbn [storage_match].
  - now rewrite Hr.
  - rewrite Ec. now apply IH.
Qed.

Lemma storage_match_open (name key : string) (cs : CacheStorage) :
  storage_match key (storage_open name cs) = storage_match key cs.
Proof.
  unfold storage_open. destruct (find_cache name cs); [reflexivity|].
  induction cs as [|[n c] cs IH]; [reflexivity|].
  cbn [app storage_match]. now rewrite IH.
Qed.

Lemma put_all_stored (P : Platform) (prs : list (string * Response)) (path : string)
    (r : Response) (c : Cache) :
  NoDup (batch_keys P prs) -> In (path, r) prs ->
  Cache_match (url (Request_of P path)) (put_all P prs c) = Some r.
Proof.
  intros Hnd Hin. rewrite (put_all_closed_form P _ _ Hnd).
  rewrite Cache_match_app, Cache_match_filtered_out.
  - apply Cache_match_In.
    + unfold Cache_keys. rewrite map_map. exact Hnd.
    + apply in_map_iff. now exists (path, r).
  - apply mem_string_In. unfold batch_keys. apply in_map_iff. now exists (path, r).
Qed.

(** X28: after an installation that succeeded, a request for a listed asset
    that no namespace stored before is answered with the response fetched at
    installation when the network is down, by either strategy. *)
Theorem installed_asset_is_served_offline :
  forall (P P' : Platform) (w : World) (request : Request) (path : string)
         (r : Response),
    forallb (asset_ok P) STATIC_ASSETS = true ->
    In path STATIC_ASSETS ->
    network P (Request_of P path) = Some r ->
    url request = (origin P ++ path)%string ->
    storage_match (url request) (caches w) = None ->
    network P' request = None ->
    result (networkFirstStrategy P' request) (exec (on_install P) w)
    = Returned (Some r)
    /\ result (cacheFirstStrategy P' request) (exec (on_install P) w)
       = Returned (Some r).
Proof.
  intros P P' w request path r Hall Hin Hn Hurl Hm Hoff.
  destruct (fetch_all_ok_succeeds P STATIC_ASSETS Hall) as [rs Hrs].
  assert (Hfound : storage_match (url request) (caches (exec (on_install P) w))
                   = Some r).
  { rewrite (on_install_caches P w), Hrs.
    apply storage_match_update_fresh.
    - now rewrite storage_match_open.
    - apply find_cache_open_same.
    - intros c. rewrite Hurl.
      apply (put_all_stored P (combine STATIC_ASSETS rs) path r c).
      + apply batch_keys_NoDup, STATIC_ASSETS_NoDup.
      + now apply (fetch_all_ok_pairs P STATIC_ASSETS rs path r). }
  unfold result. split.
  - now rewrite (network_first_offline P' request _ Hoff), Hfound.
  - now rewrite (cache_first_hit P' request _ r Hfound).
Qed.

Lemma installed_asset_is_served_offline_witness :
  result (networkFirstStrategy (sample_platform offline None 2000)
            (html_request "/Tests_9th.html"))
    (exec (on_install (sample_platform (serves shell_page) None 1000))
       previous_version_world)
  = Returned (Some shell_page).
Proof.
  destruct (installed_asset_is_served_offline
              (sample_platform (serves shell_page) None 1000)
              (sample_platform offline None 2000)
              previous_version_world (html_request "/Tests_9th.html")
              "/Tests_9th.html" shell_page) as [H _].
  - reflexivity.
  - simpl. tauto.
  - reflexivity.
  - reflexivity.
  - reflexivity.
  - reflexivity.
  - exact H.
Defined.
